(** * The mock resource monitor of the Pulumi Node.js SDK

    A shallow embedding of [sdk/nodejs/runtime/mocks.ts]: the class
    [MockMonitor], its private name synthesis [newUrn] and its handlers
    [invoke], [readResource], [registerResource], [registerResourceOutputs]
    and [supportsFeature].

    JavaScript strings are embedded as [string]; the only string operations
    of the source are concatenation, [split] on the literals "::" and "$",
    [Array.prototype.pop] and [Array.prototype.join], all of which act the
    same on a UTF-8 byte string as on UTF-16 code units because both
    separators are ASCII.  The registry [Map<string, ...>] is a
    [gmap string _]. *)

From Stdlib Require Import Ascii ZArith.
From stdpp Require Import base option list strings gmap fin_maps.

Local Open Scope string_scope.
Local Open Scope stdpp_scope.

(** ** String and array primitives of the host language *)

Module JSString.

(** [strip_prefix p s] is [Some rest] when [s = p +:+ rest]: the match
    test that [split] runs at every position of the subject. *)
Fixpoint strip_prefix (p s : string) : option string :=
  match p with
  | EmptyString => Some s
  | String a p' =>
      match s with
      | EmptyString => None
      | String b s' => if Ascii.eqb a b then strip_prefix p' s' else None
      end
  end.

(** The scanning loop of [String.prototype.split] for a non-empty
    separator: the leftmost match wins and scanning resumes behind it.
    [fuel] bounds the number of positions still to visit; [[]] is only
    returned when it runs out, which [split] below never lets happen. *)
Fixpoint split_fuel (fuel : nat) (sep s : string) : list string :=
  match s with
  | EmptyString => [""]
  | String c s' =>
      match fuel with
      | O => []
      | S fuel' =>
          match strip_prefix sep s with
          | Some rest => "" :: split_fuel fuel' sep rest
          | None =>
              match split_fuel fuel' sep s' with
              | h :: t => String c h :: t
              | [] => []
              end
          end
      end
  end.

Fixpoint chars (s : string) : list string :=
  match s with
  | EmptyString => []
  | String c s' => String c "" :: chars s'
  end.

(** [s.split(sep)].  An empty separator cuts between all characters. *)
Definition split (sep s : string) : list string :=
  match sep with
  | EmptyString => chars s
  | String _ _ => split_fuel (String.length s) sep s
  end.

(** [a.join(sep)] for an array of strings. *)
Fixpoint join (sep : string) (a : list string) : string :=
  match a with
  | [] => ""
  | [x] => x
  | x :: rest => x +:+ sep +:+ join sep rest
  end.

(** [a.pop()]: the last element, [None] standing for [undefined]. *)
Definition pop (a : list string) : option string := last a.

(** [x + s] where [x] may be [undefined]. *)
Definition to_string (x : option string) : string :=
  match x with
  | Some s => s
  | None => "undefined"
  end.

(** [c] occurs nowhere in [s]. *)
Fixpoint free_of (c : ascii) (s : string) : bool :=
  match s with
  | EmptyString => true
  | String a s' => negb (Ascii.eqb a c) && free_of c s'
  end.

(** [s] can stand between two "::" and be read back: it has no "::" in
    it and does not end in a colon. *)
Fixpoint segment (s : string) : bool :=
  match s with
  | EmptyString => true
  | String c s' =>
      match s' with
      | EmptyString => negb (Ascii.eqb c ":")
      | String c' _ => negb (Ascii.eqb c ":" && Ascii.eqb c' ":") && segment s'
      end
  end.

End JSString.

(** ** Values *)

(** The values of type [any] that flow through the monitor: plain
    JavaScript data and protobuf [Struct] messages.  [Struct] is the wire
    message type of [google-protobuf]; it is kept abstract.  Numbers are
    only carried around, never computed with. *)
#[warnings="-register-all"]
Inductive jsval (Struct : Type) : Type :=
| JUndefined
| JNull
| JBool (b : bool)
| JNum (n : Z)
| JStr (s : string)
| JArr (items : list (jsval Struct))
| JObj (fields : list (string * jsval Struct))
| JMsg (m : Struct).

Arguments JUndefined {Struct}.
Arguments JNull {Struct}.
Arguments JBool {Struct} b.
Arguments JNum {Struct} n.
Arguments JStr {Struct} s.
Arguments JArr {Struct} items.
Arguments JObj {Struct} fields.
Arguments JMsg {Struct} m.

(** The external code a handler calls into. *)
Inductive collaborator := Deserializer | Serializer | Extension | Encoder.

(** What a handler can catch: the two errors the monitor raises itself
    and whatever a collaborator threw. *)
Inductive error (Struct : Type) : Type :=
| UnknownResource (ref : jsval Struct)
| TypeError
| Thrown (by_ : collaborator) (e : jsval Struct).

Arguments UnknownResource {Struct} ref.
Arguments TypeError {Struct}.
Arguments Thrown {Struct} by_ e.

(** The outcome of calling external code: it returns or it throws. *)
Inductive attempt (Struct A : Type) : Type :=
| Returned (a : A)
| Threw (e : jsval Struct).

Arguments Returned {Struct A} a.
Arguments Threw {Struct A} e.

(** What the completion callback receives: [callback(null, response)] or
    [callback(err, undefined)]. *)
Inductive completion (Struct A : Type) : Type :=
| Done (response : A)
| Failed (err : error Struct).

Arguments Done {Struct A} response.
Arguments Failed {Struct A} err.

(** The result of [Mocks.newResource]. *)
Record MockResource (Struct : Type) := {
  mock_id : option string;
  mock_state : jsval Struct
}.

Arguments mock_id {Struct} _.
Arguments mock_state {Struct} _.

(** The interface [Mocks]. *)
Class Mocks (Struct : Type) := {
  call : string -> jsval Struct -> string -> attempt Struct (jsval Struct);
  newResource : string -> string -> jsval Struct -> string -> string -> bool ->
                attempt Struct (MockResource Struct)
}.

(** The imports of the module: [./settings], [./rpc] and the protobuf
    runtime. *)
Class Runtime (Struct : Type) := {
  getStack : string;
  getProject : string;
  deserializeProperties : Struct -> attempt Struct (jsval Struct);
  serializeProperties : string -> jsval Struct -> attempt Struct (jsval Struct);
  Struct_fromJavaScript : jsval Struct -> attempt Struct Struct
}.

(** An entry of [MockMonitor.resources]. *)
Record RegisteredResource (Struct : Type) := {
  res_urn : string;
  res_id : option string;
  res_state : jsval Struct
}.

Arguments Build_RegisteredResource {Struct} _ _ _.
Arguments res_urn {Struct} _.
Arguments res_id {Struct} _.
Arguments res_state {Struct} _.

(** ** Requests and responses *)

Module InvokeRequest.
Record t (Struct : Type) := {
  getTok : string;
  getArgs : Struct;
  getProvider : string
}.
Arguments getTok {Struct} _.
Arguments getArgs {Struct} _.
Arguments getProvider {Struct} _.
End InvokeRequest.

Module InvokeResponse.
Record t (Struct : Type) := { getReturn : Struct }.
Arguments Build_t {Struct} _.
Arguments getReturn {Struct} _.
End InvokeResponse.

Module ReadResourceRequest.
Record t (Struct : Type) := {
  getType : string;
  getName : string;
  getProperties : Struct;
  getProvider : string;
  getId : string;
  getCustom : bool;
  getParent : string
}.
Arguments getType {Struct} _.
Arguments getName {Struct} _.
Arguments getProperties {Struct} _.
Arguments getProvider {Struct} _.
Arguments getId {Struct} _.
Arguments getCustom {Struct} _.
Arguments getParent {Struct} _.
End ReadResourceRequest.

Module ReadResourceResponse.
Record t (Struct : Type) := {
  getUrn : string;
  getProperties : Struct
}.
Arguments Build_t {Struct} _ _.
Arguments getUrn {Struct} _.
Arguments getProperties {Struct} _.
End ReadResourceResponse.

Module RegisterResourceRequest.
Record t (Struct : Type) := {
  getType : string;
  getName : string;
  getObject : Struct;
  getProvider : string;
  getImportid : string;
  getCustom : bool;
  getParent : string
}.
Arguments getType {Struct} _.
Arguments getName {Struct} _.
Arguments getObject {Struct} _.
Arguments getProvider {Struct} _.
Arguments getImportid {Struct} _.
Arguments getCustom {Struct} _.
Arguments getParent {Struct} _.
End RegisterResourceRequest.

Module RegisterResourceResponse.
Record t (Struct : Type) := {
  getUrn : string;
  getId : option string;
  getObject : Struct
}.
Arguments Build_t {Struct} _ _ _.
Arguments getUrn {Struct} _.
Arguments getId {Struct} _.
Arguments getObject {Struct} _.
End RegisterResourceResponse.

Module RegisterResourceOutputsRequest.
Record t (Struct : Type) := {
  getUrn : string;
  getOutputs : Struct
}.
Arguments getUrn {Struct} _.
Arguments getOutputs {Struct} _.
End RegisterResourceOutputsRequest.

(** ** The monitor *)

Section MockMonitor.

Context {Struct : Type} `{!Runtime Struct} `{!Mocks Struct}.

#[local] Abbreviation registry := (gmap string (RegisteredResource Struct)).

(** The body of a handler: it reads and writes [this.resources] and
    either returns or throws.  A write made before a throw stays. *)
Definition M (A : Type) : Type := registry -> registry * (error Struct + A).

Definition ret {A} (a : A) : M A := fun R => (R, inr a).

Definition throw {A} (e : error Struct) : M A := fun R => (R, inl e).

Definition bind {A B} (m : M A) (k : A -> M B) : M B :=
  fun R =>
    match m R with
    | (R', inr a) => k a R'
    | (R', inl e) => (R', inl e)
    end.

(** A call into external code; an exception it throws is tagged with
    the collaborator it came from. *)
Definition external {A} (who : collaborator) (r : attempt Struct A) : M A :=
  match r with
  | Returned a => ret a
  | Threw e => throw (Thrown who e)
  end.

Definition lift {A} (r : error Struct + A) : M A := fun R => (R, r).

(** [Map.prototype.get] on the registry: its keys are strings, so a key
    of any other type finds nothing. *)
Definition lookup_key (R : registry) (key : jsval Struct) :
    option (RegisteredResource Struct) :=
  match key with
  | JStr k => R !! k
  | _ => None
  end.

(** [this.resources.get(key)]. *)
Definition resources_get (key : jsval Struct) : M (option (RegisteredResource Struct)) :=
  fun R => (R, inr (lookup_key R key)).

(** [this.resources.set(urn, entry)]. *)
Definition resources_set (urn : string) (entry : RegisteredResource Struct) : M unit :=
  fun R => (<[urn := entry]> R, inr tt).

(** [try { body } catch (err) { callback(err, undefined) }] around a
    body that ends in [callback(null, response)]. *)
Definition handler {A} (body : M A) : registry -> registry * completion Struct A :=
  fun R =>
    match body R with
    | (R', inr response) => (R', Done response)
    | (R', inl err) => (R', Failed err)
    end.

End MockMonitor.

Notation "x <- c1 ;; c2" := (bind c1 (fun x => c2))
  (at level 100, c1 at next level, right associativity).
Notation "c1 ;;; c2" := (bind c1 (fun _ => c2))
  (at level 100, right associativity).

Section Handlers.

Context {Struct : Type} `{!Runtime Struct} `{!Mocks Struct}.

#[local] Abbreviation registry := (gmap string (RegisteredResource Struct)).

(** [o[k]] on association-list fields: the first binding, else
    [undefined]. *)
Fixpoint field (fields : list (string * jsval Struct)) (k : string) : jsval Struct :=
  match fields with
  | [] => JUndefined
  | (k', v) :: rest => if decide (k' = k) then v else field rest k
  end.

(** Property access [v.k]: a [TypeError] on [undefined] and [null],
    [undefined] on values without such a property. *)
Definition js_get (v : jsval Struct) (k : string) : error Struct + jsval Struct :=
  match v with
  | JUndefined | JNull => inl TypeError
  | JObj fields => inr (field fields k)
  | _ => inr JUndefined
  end.

(** A registry entry seen as the JavaScript object [{ urn, id, state }]. *)
Definition entry_object (r : RegisteredResource Struct) : jsval Struct :=
  JObj [("urn", JStr (res_urn r));
        ("id", match res_id r with Some i => JStr i | None => JUndefined end);
        ("state", res_state r)].

(** [MockMonitor.newUrn]. *)
Definition newUrn (parent type name : string) : error Struct + string :=
  match
    (if decide (parent = "") then inr type
     else
       match JSString.split "::" parent !! 2%nat with
       | None => inl TypeError
       | Some qualifiedType =>
           let parentType := JSString.pop (JSString.split "$" qualifiedType) in
           inr (JSString.to_string parentType +:+ "$" +:+ type)
       end)
  with
  | inl e => inl e
  | inr type' =>
      inr ("urn:pulumi:" +:+ JSString.join "::" [getStack; getProject; type'; name])
  end.

(** [MockMonitor.invoke]. *)
Definition invoke (req : InvokeRequest.t Struct) :
    registry -> registry * completion Struct (InvokeResponse.t Struct) :=
  handler (
    let tok := InvokeRequest.getTok req in
    inputs <- external Deserializer (deserializeProperties (InvokeRequest.getArgs req)) ;;
    if decide (tok = "pulumi:pulumi:getResource") then
      urn <- lift (js_get inputs "urn") ;;
      registeredResource <- resources_get urn ;;
      match registeredResource with
      | None => throw (UnknownResource urn)
      | Some r =>
          resp <- external Encoder (Struct_fromJavaScript (entry_object r)) ;;
          ret (InvokeResponse.Build_t resp)
      end
    else
      result <- external Extension (call tok inputs (InvokeRequest.getProvider req)) ;;
      serialized <- external Serializer (serializeProperties "" result) ;;
      response <- external Encoder (Struct_fromJavaScript serialized) ;;
      ret (InvokeResponse.Build_t response)).

(** [MockMonitor.readResource]. *)
Definition readResource (req : ReadResourceRequest.t Struct) :
    registry -> registry * completion Struct (ReadResourceResponse.t Struct) :=
  handler (
    inputs <- external Deserializer
                (deserializeProperties (ReadResourceRequest.getProperties req)) ;;
    result <- external Extension
                (newResource (ReadResourceRequest.getType req)
                             (ReadResourceRequest.getName req)
                             inputs
                             (ReadResourceRequest.getProvider req)
                             (ReadResourceRequest.getId req)
                             (ReadResourceRequest.getCustom req)) ;;
    urn <- lift (newUrn (ReadResourceRequest.getParent req)
                        (ReadResourceRequest.getType req)
                        (ReadResourceRequest.getName req)) ;;
    serializedState <- external Serializer (serializeProperties "" (mock_state result)) ;;
    resources_set urn (Build_RegisteredResource urn (mock_id result) serializedState) ;;;
    properties <- external Encoder (Struct_fromJavaScript serializedState) ;;
    ret (ReadResourceResponse.Build_t urn properties)).

(** [MockMonitor.registerResource]. *)
Definition registerResource (req : RegisterResourceRequest.t Struct) :
    registry -> registry * completion Struct (RegisterResourceResponse.t Struct) :=
  handler (
    inputs <- external Deserializer
                (deserializeProperties (RegisterResourceRequest.getObject req)) ;;
    result <- external Extension
                (newResource (RegisterResourceRequest.getType req)
                             (RegisterResourceRequest.getName req)
                             inputs
                             (RegisterResourceRequest.getProvider req)
                             (RegisterResourceRequest.getImportid req)
                             (RegisterResourceRequest.getCustom req)) ;;
    urn <- lift (newUrn (RegisterResourceRequest.getParent req)
                        (RegisterResourceRequest.getType req)
                        (RegisterResourceRequest.getName req)) ;;
    serializedState <- external Serializer (serializeProperties "" (mock_state result)) ;;
    resources_set urn (Build_RegisteredResource urn (mock_id result) serializedState) ;;;
    object <- external Encoder (Struct_fromJavaScript serializedState) ;;
    ret (RegisterResourceResponse.Build_t urn (mock_id result) object)).

(** [MockMonitor.registerResourceOutputs]: the entry found in the map is
    mutated in place, which shows as an update of the map at its key. *)
Definition registerResourceOutputs (req : RegisterResourceOutputsRequest.t Struct) :
    registry -> registry * completion Struct unit :=
  handler (
    let urn := RegisterResourceOutputsRequest.getUrn req in
    registeredResource <- resources_get (JStr urn) ;;
    match registeredResource with
    | None => throw (UnknownResource (JStr urn))
    | Some r =>
        resources_set urn
          (Build_RegisteredResource (res_urn r) (res_id r)
             (JMsg (RegisterResourceOutputsRequest.getOutputs req))) ;;;
        ret tt
    end).

(** [MockMonitor.supportsFeature]: the response's [getHassupport()]. *)
Definition supportsFeature (req : string) : registry -> registry * completion Struct bool :=
  handler (ret true).

(** ** Histories *)

(** The calls a program under test makes to the monitor. *)
Inductive request : Type :=
| Invoke (req : InvokeRequest.t Struct)
| ReadResource (req : ReadResourceRequest.t Struct)
| RegisterResource (req : RegisterResourceRequest.t Struct)
| RegisterResourceOutputs (req : RegisterResourceOutputsRequest.t Struct)
| SupportsFeature (req : string).

(** The registry after one call. *)
Definition serve (q : request) (R : registry) : registry :=
  match q with
  | Invoke req => (invoke req R).1
  | ReadResource req => (readResource req R).1
  | RegisterResource req => (registerResource req R).1
  | RegisterResourceOutputs req => (registerResourceOutputs req R).1
  | SupportsFeature req => (supportsFeature req R).1
  end.

(** The registry of a fresh monitor after a sequence of calls, each run
    to its callback before the next. *)
Definition run (history : list request) : registry :=
  foldl (fun R q => serve q R) ∅ history.

(** The names a call commits to the registry: what it leaves in an empty
    one. *)
Definition commits (q : request) : gset string := dom (serve q ∅).

(** Every entry is stored under its own name. *)
Definition well_keyed (R : registry) : Prop :=
  forall k r, R !! k = Some r -> res_urn r = k.

(** The calls that go through [this.resources.set]. *)
Definition is_registration (q : request) : bool :=
  match q with
  | ReadResource _ | RegisterResource _ => true
  | Invoke _ | RegisterResourceOutputs _ | SupportsFeature _ => false
  end.

(** ** Vocabulary of the properties *)

(** [req] is a self-lookup whose arguments deserialize to an object with
    [key] as its [urn] property. *)
Definition asks_for (req : InvokeRequest.t Struct) (key : jsval Struct) : Prop :=
  InvokeRequest.getTok req = "pulumi:pulumi:getResource" /\
  exists inputs,
    deserializeProperties (InvokeRequest.getArgs req) = Returned inputs /\
    js_get inputs "urn" = inr key.

(** The completion of a self-lookup that found the entry [r]: the whole
    entry goes through the encoder. *)
Definition found (r : RegisteredResource Struct) :
    completion Struct (InvokeResponse.t Struct) :=
  match Struct_fromJavaScript (entry_object r) with
  | Returned resp => Done (InvokeResponse.Build_t resp)
  | Threw e => Failed (Thrown Encoder e)
  end.

(** The errors raised while a registration is resolved: by the
    extension point, by the (de)serialization of properties, or by name
    synthesis. *)
Definition resolution_error (e : error Struct) : Prop :=
  match e with
  | Thrown Extension _ | Thrown Serializer _ | Thrown Deserializer _ => True
  | TypeError => True
  | Thrown Encoder _ | UnknownResource _ => False
  end.

(** The type a parent name hands down to its children, [None] when there
    is no parent. *)
Definition inherited_type (parent : string) : option string :=
  if decide (parent = "") then None
  else
    match JSString.split "::" parent !! 2%nat with
    | Some qualifiedType => JSString.pop (JSString.split "$" qualifiedType)
    | None => None
    end.

(** The name built from an effective type. *)
Definition urn_of (effectiveType name : string) : string :=
  "urn:pulumi:" +:+ getStack +:+ "::" +:+ getProject +:+ "::" +:+
  effectiveType +:+ "::" +:+ name.

End Handlers.

(** ** A concrete environment

    A wire format that carries the serialized value as it is, serializers
    that change nothing, and an extension point that knows one resource
    type and one function. *)

Module Sample.

#[warnings="-register-all"]
Inductive wire := Packed (v : jsval wire).

Definition bucket_state : jsval wire :=
  JObj [("foo", JStr "bar"); ("arn", JStr "arn:...")].

#[export] Instance runtime : Runtime wire := {|
  getStack := "stack";
  getProject := "project";
  deserializeProperties := fun '(Packed v) => Returned v;
  serializeProperties := fun _ v => Returned v;
  Struct_fromJavaScript := fun v => Returned (Packed v)
|}.

#[export] Instance mocks : Mocks wire := {|
  call := fun tok args _ =>
    if decide (tok = "pkg:mod:echo") then Returned args
    else Threw (JStr "unknown function");
  newResource := fun type name inputs _ _ _ =>
    if decide (type = "pkg:mod:Bucket")
    then Returned {| mock_id := Some "bucket-1"; mock_state := bucket_state |}
    else Threw (JStr "unknown type")
|}.

Definition register_bucket : RegisterResourceRequest.t wire :=
  {| RegisterResourceRequest.getType := "pkg:mod:Bucket";
     RegisterResourceRequest.getName := "my-bucket";
     RegisterResourceRequest.getObject := Packed (JObj [("foo", JStr "bar")]);
     RegisterResourceRequest.getProvider := "";
     RegisterResourceRequest.getImportid := "";
     RegisterResourceRequest.getCustom := true;
     RegisterResourceRequest.getParent := "" |}.

Definition bucket_urn : string := "urn:pulumi:stack::project::pkg:mod:Bucket::my-bucket".

Definition bucket_entry : RegisteredResource wire :=
  Build_RegisteredResource bucket_urn (Some "bucket-1") bucket_state.

Definition get_resource (urn : string) : InvokeRequest.t wire :=
  {| InvokeRequest.getTok := "pulumi:pulumi:getResource";
     InvokeRequest.getArgs := Packed (JObj [("urn", JStr urn)]);
     InvokeRequest.getProvider := "" |}.

Definition read_bucket (parent : string) : ReadResourceRequest.t wire :=
  {| ReadResourceRequest.getType := "pkg:mod:Bucket";
     ReadResourceRequest.getName := "my-bucket";
     ReadResourceRequest.getProperties := Packed (JObj []);
     ReadResourceRequest.getProvider := "";
     ReadResourceRequest.getId := "bucket-1";
     ReadResourceRequest.getCustom := true;
     ReadResourceRequest.getParent := parent |}.

Definition register_child (type parent : string) : RegisterResourceRequest.t wire :=
  {| RegisterResourceRequest.getType := type;
     RegisterResourceRequest.getName := "child";
     RegisterResourceRequest.getObject := Packed (JObj []);
     RegisterResourceRequest.getProvider := "";
     RegisterResourceRequest.getImportid := "";
     RegisterResourceRequest.getCustom := true;
     RegisterResourceRequest.getParent := parent |}.

Definition outputs (urn : string) (o : jsval wire) : RegisterResourceOutputsRequest.t wire :=
  {| RegisterResourceOutputsRequest.getUrn := urn;
     RegisterResourceOutputsRequest.getOutputs := Packed o |}.

(** A runtime whose encoder rejects every value. *)
Definition rejecting_runtime : Runtime wire := {|
  getStack := "stack";
  getProject := "project";
  deserializeProperties := fun '(Packed v) => Returned v;
  serializeProperties := fun _ v => Returned v;
  Struct_fromJavaScript := fun _ => Threw (JStr "Unexpected struct type.")
|}.

(** An extension point that answers nothing. *)
Definition silent_mocks : Mocks wire := {|
  call := fun _ _ _ => Threw (JStr "not mocked");
  newResource := fun _ _ _ _ _ _ => Threw (JStr "not mocked")
|}.

Definition echo (args : jsval wire) : InvokeRequest.t wire :=
  {| InvokeRequest.getTok := "pkg:mod:echo";
     InvokeRequest.getArgs := Packed args;
     InvokeRequest.getProvider := "" |}.

Definition get_resource_with (args : jsval wire) : InvokeRequest.t wire :=
  {| InvokeRequest.getTok := "pulumi:pulumi:getResource";
     InvokeRequest.getArgs := Packed args;
     InvokeRequest.getProvider := "" |}.

Definition register_named (name parent : string) : RegisterResourceRequest.t wire :=
  {| RegisterResourceRequest.getType := "pkg:mod:Bucket";
     RegisterResourceRequest.getName := name;
     RegisterResourceRequest.getObject := Packed (JObj []);
     RegisterResourceRequest.getProvider := "";
     RegisterResourceRequest.getImportid := "";
     RegisterResourceRequest.getCustom := true;
     RegisterResourceRequest.getParent := parent |}.

End Sample.

(** * Properties *)

(** ** Strings *)

Section StringFacts.

Import JSString.

Lemma app_cons (c : ascii) (s t : string) : String c s +:+ t = String c (s +:+ t).
Proof. reflexivity. Qed.

Lemma app_nil_l (s : string) : "" +:+ s = s.
Proof. reflexivity. Qed.

Lemma free_of_app (c : ascii) (s t : string) :
  free_of c (s +:+ t) = free_of c s && free_of c t.
Proof.
  induction s as [|a s IH]; [reflexivity|].
  rewrite app_cons. simpl. rewrite IH. by rewrite andb_assoc.
Qed.

Lemma strip_prefix_length (p s r : string) :
  strip_prefix p s = Some r -> String.length s = String.length p + String.length r.
Proof.
  revert s. induction p as [|a p IH]; intros s H; simpl in *.
  - by inversion H.
  - destruct s as [|b s]; [discriminate|].
    destruct (Ascii.eqb a b); [|discriminate].
    simpl. f_equal. by apply IH.
Qed.

(** The result of the scanning loop does not depend on the fuel once
    there is as much of it as there are characters. *)
Lemma split_fuel_irrelevant (a : ascii) (p : string) (n m : nat) (s : string) :
  String.length s <= n -> String.length s <= m ->
  split_fuel n (String a p) s = split_fuel m (String a p) s.
Proof.
  revert m s. induction n as [|n IH]; intros m s Hn Hm.
  - destruct s; simpl in *; [|lia]. by destruct m.
  - destruct s as [|c s]; [by destruct m|].
    destruct m as [|m]; simpl in Hn, Hm; [lia|].
    cbn [split_fuel].
    destruct (strip_prefix (String a p) (String c s)) as [rest|] eqn:E.
    + apply strip_prefix_length in E. simpl in E.
      f_equal. apply IH; lia.
    + rewrite (IH m s); [done|lia|lia].
Qed.

Lemma split_fuel_nonempty (a : ascii) (p : string) (n : nat) (s : string) :
  String.length s <= n -> split_fuel n (String a p) s <> [].
Proof.
  revert s. induction n as [|n IH]; intros s Hn.
  - destruct s; simpl in *; [done|lia].
  - destruct s as [|c s]; [done|]. simpl in Hn. cbn [split_fuel].
    destruct (strip_prefix (String a p) (String c s)); [done|].
    specialize (IH s ltac:(lia)).
    by destruct (split_fuel n (String a p) s).
Qed.

(** [split] never yields the empty array for a non-empty separator, so
    the [pop()] of [newUrn] always finds an element. *)
Lemma split_nonempty (a : ascii) (p s : string) : split (String a p) s <> [].
Proof. apply split_fuel_nonempty. lia. Qed.

(** One step of the scan, free of fuel. *)
Lemma split_step (a : ascii) (p : string) (c : ascii) (s : string) :
  split (String a p) (String c s) =
  match strip_prefix (String a p) (String c s) with
  | Some rest => "" :: split (String a p) rest
  | None =>
      match split (String a p) s with
      | h :: t => String c h :: t
      | [] => []
      end
  end.
Proof.
  unfold split. cbn [String.length split_fuel].
  destruct (strip_prefix (String a p) (String c s)) as [rest|] eqn:E.
  - apply strip_prefix_length in E. simpl in E.
    f_equal. apply split_fuel_irrelevant; lia.
  - done.
Qed.

(** For a separator of one character the step reads off the head. *)
Lemma split_char_step (d c : ascii) (s : string) :
  split (String d "") (String c s) =
  if Ascii.eqb d c then "" :: split (String d "") s
  else match split (String d "") s with
       | h :: t => String c h :: t
       | [] => []
       end.
Proof. rewrite split_step. simpl. by destruct (Ascii.eqb d c). Qed.

Lemma split_char_pieces (d : ascii) (s : string) :
  Forall (fun piece => free_of d piece = true) (split (String d "") s).
Proof.
  induction s as [|c s IH].
  - by repeat constructor.
  - rewrite split_char_step. destruct (Ascii.eqb d c) eqn:E.
    + by constructor.
    + destruct (split (String d "") s) as [|h t]; [constructor|].
      inversion IH; subst. constructor; [|done].
      simpl. rewrite Ascii.eqb_sym, E. done.
Qed.

Lemma split_char_free (d : ascii) (s : string) :
  free_of d s = true -> split (String d "") s = [s].
Proof.
  induction s as [|c s IH]; [done|]. intros H.
  cbn [free_of] in H. apply andb_prop in H as [Hc Hs].
  rewrite split_char_step, Ascii.eqb_sym.
  destruct (Ascii.eqb c d); [done|]. by rewrite IH.
Qed.

(** [a$b] has at least two pieces, the last of which is [b] when [b] has
    no separator in it. *)
Lemma split_char_app (d : ascii) (a b : string) :
  free_of d b = true ->
  exists h t, split (String d "") (a +:+ String d b) = h :: t /\ last t = Some b.
Proof.
  intros Hb. induction a as [|c a (h & t & E & Ht)].
  - exists "", [b].
    by rewrite app_nil_l, split_char_step, Ascii.eqb_refl, split_char_free.
  - rewrite app_cons, split_char_step, E.
    destruct (Ascii.eqb d c).
    + exists "", (h :: t). split; [done|]. by rewrite last_cons, Ht.
    + by exists (String c h), t.
Qed.

Lemma pop_split_char (d : ascii) (a b : string) :
  free_of d b = true ->
  pop (split (String d "") (a +:+ String d b)) = Some b.
Proof.
  intros Hb. destruct (split_char_app d a b Hb) as (h & t & -> & Ht).
  unfold pop. by rewrite last_cons, Ht.
Qed.

Lemma pop_split_char_free (d : ascii) (q : string) :
  exists piece, pop (split (String d "") q) = Some piece /\ free_of d piece = true.
Proof.
  pose proof (split_char_pieces d q) as HF.
  pose proof (split_nonempty d "" q) as HN.
  unfold pop. destruct (last (split (String d "") q)) as [piece|] eqn:E.
  - exists piece. split; [done|].
    rewrite Forall_forall in HF. apply HF.
    apply last_Some in E as [l' ->]. apply elem_of_app. right. by apply list_elem_of_singleton.
  - by apply last_None in E.
Qed.

(** A prefix without the separator character is determined by the
    whole. *)
Lemma app_char_inj (d : ascii) (p1 p2 t1 t2 : string) :
  free_of d p1 = true -> free_of d p2 = true ->
  p1 +:+ String d t1 = p2 +:+ String d t2 -> p1 = p2 /\ t1 = t2.
Proof.
  revert p2. induction p1 as [|c p1 IH]; intros [|c2 p2] H1 H2 E;
    rewrite ?app_nil_l, ?app_cons in E; simpl in *.
  - by inversion E.
  - inversion E; subst. by rewrite Ascii.eqb_refl in H2.
  - inversion E; subst. by rewrite Ascii.eqb_refl in H1.
  - inversion E; subst.
    apply andb_prop in H1 as [_ H1]. apply andb_prop in H2 as [_ H2].
    destruct (IH p2 H1 H2 ltac:(done)) as [-> ->]. done.
Qed.

(** A suffix without the separator character is determined by the
    whole, whatever stands before the separator. *)
Lemma app_sep_suffix_inj (d : ascii) (e1 e2 n1 n2 : string) :
  free_of d n1 = true -> free_of d n2 = true ->
  e1 +:+ String d (String d n1) = e2 +:+ String d (String d n2) ->
  e1 = e2 /\ n1 = n2.
Proof.
  intros H1 H2.
  assert (Hclash : forall e n n', free_of d n = true ->
            String d (String d n) <> String d e +:+ String d (String d n')).
  { intros e n n' Hn E. rewrite app_cons in E. inversion E as [E'].
    destruct e as [|c e]; rewrite ?app_nil_l, ?app_cons in E'.
    - inversion E'; subst. simpl in Hn. by rewrite Ascii.eqb_refl in Hn.
    - inversion E'; subst. rewrite free_of_app in Hn. simpl in Hn.
      rewrite Ascii.eqb_refl in Hn. simpl in Hn. by rewrite andb_false_r in Hn. }
  revert e2. induction e1 as [|c e1 IH]; intros [|c2 e2] E;
    rewrite ?app_nil_l in E.
  - by inversion E.
  - rewrite app_cons in E. inversion E; subst.
    exfalso. eapply (Hclash e2 n1 n2); [done|]. by rewrite app_cons.
  - rewrite app_cons in E. inversion E; subst.
    exfalso. eapply (Hclash e1 n2 n1); [done|]. by rewrite app_cons.
  - rewrite !app_cons in E. inversion E; subst.
    destruct (IH e2 ltac:(done)) as [-> ->]. done.
Qed.

(** A segment followed by "::" is cut off as a piece of its own. *)
Lemma split_segment (a rest : string) :
  segment a = true ->
  split "::" (a +:+ "::" +:+ rest) = a :: split "::" rest.
Proof.
  induction a as [|c a IH]; intros Ha.
  - rewrite app_nil_l.
    change ("::" +:+ rest) with (String ":" (String ":" rest)).
    by rewrite split_step.
  - rewrite app_cons, split_step.
    assert (Hnone : strip_prefix "::" (String c (a +:+ "::" +:+ rest)) = None).
    { cbn [strip_prefix]. destruct (Ascii.eqb ":" c) eqn:Ec; [|done].
      apply Ascii.eqb_eq in Ec as <-.
      destruct a as [|c' a]; [done|]. rewrite app_cons.
      destruct (Ascii.eqb ":" c') eqn:Ec'; [|done].
      apply Ascii.eqb_eq in Ec' as <-. done. }
    rewrite Hnone, IH; [done|].
    destruct a as [|c' a]; [done|].
    cbn [segment] in Ha. by apply andb_prop in Ha as [_ Ha].
Qed.

Lemma free_of_segment (s : string) : free_of ":" s = true -> segment s = true.
Proof.
  induction s as [|c s IH]; [done|]. intros H.
  cbn [free_of] in H. apply andb_prop in H as [Hc Hs].
  cbn [segment]. destruct s as [|c' s]; [done|].
  rewrite (IH Hs), andb_true_r.
  destruct (Ascii.eqb c ":"); done.
Qed.

(** Joining the pieces with the separator gives the subject back. *)
Lemma join_split (a : ascii) (p s : string) :
  join (String a p) (split (String a p) s) = s.
Proof.
  assert (Hstrip : forall q t r, strip_prefix q t = Some r -> t = q +:+ r).
  { induction q as [|b q IH]; intros t r H; simpl in H.
    - by inversion H.
    - destruct t as [|b' t]; [done|].
      destruct (Ascii.eqb b b') eqn:Eb; [|done].
      apply Ascii.eqb_eq in Eb as <-. rewrite app_cons. f_equal. by apply IH. }
  assert (Hjoin : forall x l, l <> [] ->
            join (String a p) (x :: l) = x +:+ String a p +:+ join (String a p) l).
  { intros x [|y l] Hl; done. }
  remember (String.length s) as n eqn:Hn.
  revert s Hn. induction n as [n IH] using lt_wf_ind. intros s ->.
  destruct s as [|c s]; [done|]. rewrite split_step.
  destruct (strip_prefix (String a p) (String c s)) as [rest|] eqn:E.
  - pose proof (strip_prefix_length _ _ _ E) as Hlen. simpl in Hlen.
    rewrite Hjoin by apply split_nonempty.
    rewrite (IH (String.length rest)); [|simpl; lia|done].
    by rewrite app_nil_l, <- (Hstrip _ _ _ E).
  - pose proof (IH (String.length s) ltac:(simpl; lia) s eq_refl) as Hs.
    destruct (split (String a p) s) as [|h [|h' t]] eqn:Es.
    + by destruct (split_nonempty a p s).
    + simpl in *. by subst.
    + rewrite Hjoin by done. rewrite Hjoin in Hs by done.
      rewrite app_cons. by rewrite Hs.
Qed.

End StringFacts.

(** ** The handlers, case by case *)

Section MonitorFacts.

Context {Struct : Type} `{!Runtime Struct} `{!Mocks Struct}.

#[local] Abbreviation registry := (gmap string (RegisteredResource Struct)).

Import JSString.

Ltac step_handler :=
  unfold handler, bind, external, lift, ret, throw, resources_set, resources_get.

(** Follow the body of a handler through its external calls, in order. *)
Ltac run_handler :=
  step_handler; simpl;
  repeat match goal with
         | |- context [match ?c with Returned _ => _ | Threw _ => _ end] =>
             destruct c; simpl
         | |- context [match newUrn ?p ?t ?n with inl _ => _ | inr _ => _ end] =>
             destruct (newUrn p t n); simpl
         end;
  try done.

(** [newUrn] fails in one way only. *)
Lemma newUrn_error (parent type name : string) (e : error Struct) :
  newUrn parent type name = inl e -> e = TypeError.
Proof.
  unfold newUrn. destruct (decide (parent = "")); [done|].
  destruct (split "::" parent !! 2%nat); [done|]. by intros [= <-].
Qed.

Lemma newUrn_no_parent (type name : string) :
  newUrn "" type name = inr (urn_of type name).
Proof. reflexivity. Qed.

Lemma newUrn_parent (parent type name qualifiedType : string) :
  parent <> "" ->
  split "::" parent !! 2%nat = Some qualifiedType ->
  newUrn parent type name =
  inr (urn_of (to_string (pop (split "$" qualifiedType)) +:+ "$" +:+ type) name).
Proof.
  intros Hp Hq. unfold newUrn. destruct (decide (parent = "")); [done|].
  by rewrite Hq.
Qed.

Lemma newUrn_malformed (parent type name : string) :
  parent <> "" ->
  split "::" parent !! 2%nat = None ->
  newUrn parent type name = inl TypeError.
Proof.
  intros Hp Hq. unfold newUrn. destruct (decide (parent = "")); [done|].
  by rewrite Hq.
Qed.

(** Every way [readResource] can go. *)
Lemma readResource_cases (req : ReadResourceRequest.t Struct) (R : registry) :
  readResource req R =
  match deserializeProperties (ReadResourceRequest.getProperties req) with
  | Threw x => (R, Failed (Thrown Deserializer x))
  | Returned inputs =>
      match newResource (ReadResourceRequest.getType req)
                        (ReadResourceRequest.getName req) inputs
                        (ReadResourceRequest.getProvider req)
                        (ReadResourceRequest.getId req)
                        (ReadResourceRequest.getCustom req) with
      | Threw x => (R, Failed (Thrown Extension x))
      | Returned result =>
          match newUrn (ReadResourceRequest.getParent req)
                       (ReadResourceRequest.getType req)
                       (ReadResourceRequest.getName req) with
          | inl e => (R, Failed e)
          | inr urn =>
              match serializeProperties "" (mock_state result) with
              | Threw x => (R, Failed (Thrown Serializer x))
              | Returned st =>
                  let R' := <[urn := Build_RegisteredResource urn (mock_id result) st]> R in
                  match Struct_fromJavaScript st with
                  | Threw x => (R', Failed (Thrown Encoder x))
                  | Returned properties =>
                      (R', Done (ReadResourceResponse.Build_t urn properties))
                  end
              end
          end
      end
  end.
Proof.
  unfold readResource. run_handler.
Qed.

(** Every way [registerResource] can go. *)
Lemma registerResource_cases (req : RegisterResourceRequest.t Struct) (R : registry) :
  registerResource req R =
  match deserializeProperties (RegisterResourceRequest.getObject req) with
  | Threw x => (R, Failed (Thrown Deserializer x))
  | Returned inputs =>
      match newResource (RegisterResourceRequest.getType req)
                        (RegisterResourceRequest.getName req) inputs
                        (RegisterResourceRequest.getProvider req)
                        (RegisterResourceRequest.getImportid req)
                        (RegisterResourceRequest.getCustom req) with
      | Threw x => (R, Failed (Thrown Extension x))
      | Returned result =>
          match newUrn (RegisterResourceRequest.getParent req)
                       (RegisterResourceRequest.getType req)
                       (RegisterResourceRequest.getName req) with
          | inl e => (R, Failed e)
          | inr urn =>
              match serializeProperties "" (mock_state result) with
              | Threw x => (R, Failed (Thrown Serializer x))
              | Returned st =>
                  let R' := <[urn := Build_RegisteredResource urn (mock_id result) st]> R in
                  match Struct_fromJavaScript st with
                  | Threw x => (R', Failed (Thrown Encoder x))
                  | Returned object =>
                      (R', Done (RegisterResourceResponse.Build_t urn (mock_id result) object))
                  end
              end
          end
      end
  end.
Proof.
  unfold registerResource. run_handler.
Qed.

(** Every way [registerResourceOutputs] can go. *)
Lemma registerResourceOutputs_cases
    (req : RegisterResourceOutputsRequest.t Struct) (R : registry) :
  registerResourceOutputs req R =
  let urn := RegisterResourceOutputsRequest.getUrn req in
  match R !! urn with
  | None => (R, Failed (UnknownResource (JStr urn)))
  | Some r =>
      (<[urn := Build_RegisteredResource (res_urn r) (res_id r)
                  (JMsg (RegisterResourceOutputsRequest.getOutputs req))]> R,
       Done tt)
  end.
Proof.
  unfold registerResourceOutputs. step_handler. simpl.
  by destruct (R !! RegisterResourceOutputsRequest.getUrn req).
Qed.

(** The self-lookup branch of [invoke]. *)
Lemma invoke_getResource (req : InvokeRequest.t Struct) (key : jsval Struct) (R : registry) :
  asks_for req key ->
  invoke req R =
  (R, match lookup_key R key with
      | Some r => found r
      | None => Failed (UnknownResource key)
      end).
Proof.
  intros (Htok & inputs & Hin & Hkey).
  unfold invoke, found. step_handler. rewrite Hin, Htok. simpl.
  rewrite Hkey. destruct (lookup_key R key) as [r|]; [|done].
  by destruct (Struct_fromJavaScript (entry_object r)).
Qed.

(** A registration that completed reports the name [newUrn] built and
    has stored an entry under it. *)
Lemma readResource_done (req : ReadResourceRequest.t Struct) (R R' : registry)
    (resp : ReadResourceResponse.t Struct) :
  readResource req R = (R', Done resp) ->
  newUrn (ReadResourceRequest.getParent req) (ReadResourceRequest.getType req)
         (ReadResourceRequest.getName req) = inr (ReadResourceResponse.getUrn resp) /\
  exists id st,
    R' = <[ReadResourceResponse.getUrn resp :=
             Build_RegisteredResource (ReadResourceResponse.getUrn resp) id st]> R.
Proof.
  rewrite readResource_cases. intros E.
  repeat case_match; simplify_eq/=. eauto.
Qed.

Lemma registerResource_done (req : RegisterResourceRequest.t Struct) (R R' : registry)
    (resp : RegisterResourceResponse.t Struct) :
  registerResource req R = (R', Done resp) ->
  newUrn (RegisterResourceRequest.getParent req) (RegisterResourceRequest.getType req)
         (RegisterResourceRequest.getName req) = inr (RegisterResourceResponse.getUrn resp) /\
  exists st,
    R' = <[RegisterResourceResponse.getUrn resp :=
             Build_RegisteredResource (RegisterResourceResponse.getUrn resp)
               (RegisterResourceResponse.getId resp) st]> R.
Proof.
  rewrite registerResource_cases. intros E.
  repeat case_match; simplify_eq/=. eauto.
Qed.

(** [invoke] never writes to the registry. *)
Lemma invoke_registry (req : InvokeRequest.t Struct) (R : registry) :
  (invoke req R).1 = R.
Proof.
  unfold invoke. step_handler. simpl.
  destruct (deserializeProperties (InvokeRequest.getArgs req)); simpl; [|done].
  case_decide; simpl.
  - destruct (js_get a "urn") as [e|key]; simpl; [done|].
    destruct (lookup_key R key) as [r|]; simpl; [|done].
    by destruct (Struct_fromJavaScript (entry_object r)).
  - run_handler.
Qed.

(** What a call commits does not depend on the registry it finds, and
    nothing is ever taken out. *)
Lemma dom_serve (q : request) (R : registry) :
  dom (serve q R) = dom R ∪ commits q.
Proof.
  assert (Hkeep : dom R = dom R ∪ dom (∅ : registry)).
  { by rewrite dom_empty_L, (right_id_L ∅ (∪)). }
  assert (Hput : forall u (e : RegisteredResource Struct),
            dom (<[u := e]> R) = dom R ∪ dom (<[u := e]> (∅ : registry))).
  { intros u e. rewrite !dom_insert_L, dom_empty_L, (right_id_L ∅ (∪)).
    apply (comm_L (∪)). }
  unfold commits. destruct q as [req|req|req|req|req]; simpl.
  - by rewrite !invoke_registry.
  - rewrite !readResource_cases. repeat case_match; simpl; done.
  - rewrite !registerResource_cases. repeat case_match; simpl; done.
  - rewrite !registerResourceOutputs_cases. simpl. rewrite lookup_empty.
    destruct (R !! RegisterResourceOutputsRequest.getUrn req) eqn:E; simpl; [|done].
    rewrite <- Hkeep. apply dom_insert_lookup_L. by eexists.
  - done.
Qed.

Lemma dom_run_snoc (history : list request) (q : request) :
  dom (run (history ++ [q])) = dom (run history) ∪ commits q.
Proof. unfold run. rewrite foldl_snoc. apply dom_serve. Qed.

(** A name no call of the history committed is not in the registry. *)
Lemma run_never_committed (history : list request) (urn : string) :
  (forall q, q ∈ history -> urn ∉ commits q) -> run history !! urn = None.
Proof.
  induction history as [|q history IH] using rev_ind; intros H.
  - apply lookup_empty.
  - apply not_elem_of_dom. rewrite dom_run_snoc.
    apply not_elem_of_union. split.
    + apply not_elem_of_dom, IH. intros q' Hq'. apply H.
      apply elem_of_app. by left.
    + apply H. apply elem_of_app. right. by apply list_elem_of_singleton.
Qed.

Lemma serve_well_keyed (q : request) (R : registry) :
  well_keyed R -> well_keyed (serve q R).
Proof.
  intros HR. destruct q as [req|req|req|req|req]; simpl.
  - by rewrite invoke_registry.
  - rewrite readResource_cases.
    repeat case_match; simpl; try done;
      intros k r [[<- <-]|[_ Hk]]%lookup_insert_Some; eauto.
  - rewrite registerResource_cases.
    repeat case_match; simpl; try done;
      intros k r [[<- <-]|[_ Hk]]%lookup_insert_Some; eauto.
  - rewrite registerResourceOutputs_cases. simpl.
    destruct (R !! RegisterResourceOutputsRequest.getUrn req) as [r0|] eqn:E;
      simpl; [|done].
    intros k r [[<- <-]|[_ Hk]]%lookup_insert_Some; simpl; eauto.
  - done.
Qed.

(** Every registry a monitor can reach keeps its entries under their own
    names. *)
Lemma run_well_keyed (history : list request) : well_keyed (run history).
Proof.
  induction history as [|q history IH] using rev_ind.
  - intros k r Hk. unfold run in Hk. simpl in Hk. by rewrite lookup_empty in Hk.
  - unfold run. rewrite foldl_snoc. by apply serve_well_keyed.
Qed.

End MonitorFacts.

(** ** Name synthesis *)

Section NameSynthesis.

Context {Struct : Type} `{!Runtime Struct}.

Import JSString.

(** What a successful synthesis returns, by presence of a parent. *)
Lemma newUrn_shape (parent type name u : string) :
  newUrn (Struct := Struct) parent type name = inr u ->
  (parent = "" /\ inherited_type parent = None /\ u = urn_of type name) \/
  (parent <> "" /\ exists p,
      inherited_type parent = Some p /\ free_of "$" p = true /\
      u = urn_of (p +:+ "$" +:+ type) name).
Proof.
  unfold newUrn, inherited_type.
  destruct (decide (parent = "")) as [->|Hp].
  - intros [= <-]. by left.
  - destruct (split "::" parent !! 2%nat) as [q|]; [|done].
    destruct (pop_split_char_free "$" q) as (p & Hpop & Hfree).
    rewrite Hpop. intros [= <-]. right. split; [done|]. by exists p.
Qed.

(** Two names agree only if their effective types and their logical
    names do, once the logical names are free of colons. *)
Lemma urn_of_inj (e1 e2 n1 n2 : string) :
  free_of ":" n1 = true -> free_of ":" n2 = true ->
  urn_of e1 n1 = urn_of e2 n2 -> e1 = e2 /\ n1 = n2.
Proof.
  intros H1 H2 E. unfold urn_of in E.
  do 5 apply String.app_inj in E.
  exact (app_sep_suffix_inj ":" e1 e2 n1 n2 H1 H2 E).
Qed.

Lemma app_assoc (a b c : string) : (a +:+ b) +:+ c = a +:+ b +:+ c.
Proof. induction a as [|x a IH]; [done|]. by rewrite !app_cons, IH. Qed.

(** A name built by [newUrn] gives its effective type back as the third
    "::"-component, provided the stack name is not empty, neither it nor
    the project name has a colon, and the effective type has no "::" and
    no colon at its end. *)
Lemma urn_of_qualified_type (effectiveType name : string) :
  getStack <> "" ->
  free_of ":" getStack = true -> free_of ":" getProject = true ->
  segment effectiveType = true ->
  split "::" (urn_of effectiveType name) !! 2%nat = Some effectiveType.
Proof.
  intros Hne Hstack Hproject Heff. unfold urn_of.
  rewrite <- (app_assoc "urn:pulumi:" getStack).
  rewrite split_segment.
  - rewrite split_segment by by apply free_of_segment.
    by rewrite split_segment.
  - destruct getStack as [|c stack]; [done|].
    cbn [free_of] in Hstack. apply andb_prop in Hstack as [Hc Hs].
    apply free_of_segment in Hs.
    rewrite !app_cons, app_nil_l. cbn [segment Ascii.eqb Bool.eqb andb negb].
    apply negb_true_iff in Hc. rewrite Hc.
    destruct stack as [|c' stack]; [done|]. by rewrite Hs.
Qed.

(** The chain is carried one level at a time: a child of type [C] under
    a parent that was itself named with the effective type [A$B] gets
    the effective type [B$C]. *)
Corollary newUrn_under_synthesized_parent (A B C pname name : string) :
  getStack <> "" ->
  free_of ":" getStack = true -> free_of ":" getProject = true ->
  segment (A +:+ "$" +:+ B) = true -> free_of "$" B = true ->
  newUrn (Struct := Struct) (urn_of (A +:+ "$" +:+ B) pname) C name =
  inr (urn_of (B +:+ "$" +:+ C) name).
Proof.
  intros Hne Hstack Hproject Hseg HB.
  rewrite (newUrn_parent _ _ _ (A +:+ "$" +:+ B)).
  - change (A +:+ "$" +:+ B) with (A +:+ String "$" B).
    by rewrite pop_split_char.
  - done.
  - by apply urn_of_qualified_type.
Qed.

End NameSynthesis.

(** ** The specification, claim by claim *)

Section Claims.

Context {Struct : Type} `{!Runtime Struct} `{!Mocks Struct}.

#[local] Abbreviation registry := (gmap string (RegisteredResource Struct)).

Import JSString.

(** C1, as amended.  A self-lookup [invoke("pulumi:pulumi:getResource",
    {urn})] leaves the registry alone.  When [urn] is registered it
    hands the whole entry [{urn, id, state}] - whose [state] property is
    the state stored last for that name - to the encoder, not the state
    mapping alone: if the encoder accepts the entry the call returns that
    encoding, and if the encoder rejects it the call fails with the
    encoder's error.  When [urn] is not registered the call fails with
    the unknown-resource error.  In the registry a monitor has reached
    through a history of calls, the entry found carries the name asked
    for, and a name no call of the history committed is not
    registered. *)
Theorem getResource_returns_entry
    (req : InvokeRequest.t Struct) (key : jsval Struct) (R : registry) :
  asks_for req key ->
  invoke req R =
    (R, match lookup_key R key with
        | Some r => found r
        | None => Failed (UnknownResource key)
        end) /\
  (forall r, lookup_key R key = Some r ->
     js_get (entry_object r) "urn" = inr (JStr (res_urn r)) /\
     js_get (entry_object r) "state" = inr (res_state r) /\
     (forall s, Struct_fromJavaScript (entry_object r) = Returned s ->
        invoke req R = (R, Done (InvokeResponse.Build_t s))) /\
     (forall e, Struct_fromJavaScript (entry_object r) = Threw e ->
        invoke req R = (R, Failed (Thrown Encoder e)))) /\
  (lookup_key R key = None ->
     invoke req R = (R, Failed (UnknownResource key))) /\
  (forall history urn, R = run history -> key = JStr urn ->
     (forall r, R !! urn = Some r ->
        res_urn r = urn /\ invoke req R = (R, found r)) /\
     ((forall q, q ∈ history -> urn ∉ commits q) ->
        invoke req R = (R, Failed (UnknownResource (JStr urn))))).
Proof.
  intros Hreq. pose proof (invoke_getResource _ _ R Hreq) as Hinv.
  split; [exact Hinv|]. split; [|split].
  - intros r Hr. rewrite Hr in Hinv. unfold found in Hinv.
    split; [done|]. split; [done|]. split.
    + intros s Hs. by rewrite Hs in Hinv.
    + intros e He. by rewrite He in Hinv.
  - intros Hnone. by rewrite Hnone in Hinv.
  - intros history urn -> ->. rewrite Hinv. simpl. split.
    + intros r Hr. rewrite Hr. split; [|done]. by apply (run_well_keyed history).
    + intros Hnever. by rewrite run_never_committed.
Qed.

(** C2.  When the third "::"-component of the parent's name is a chain
    [A$B] whose last link is [B], a child of type [C] is named with the
    type segment [B$C]: [newUrn] builds it so, and a completed
    [registerResource] or [readResource] reports exactly that name. *)
Theorem child_inherits_innermost_type (parent A B C name : string) :
  split "::" parent !! 2%nat = Some (A +:+ "$" +:+ B) ->
  free_of "$" B = true ->
  newUrn (Struct := Struct) parent C name =
    inr ("urn:pulumi:" +:+ join "::" [getStack; getProject; B +:+ "$" +:+ C; name]) /\
  (forall req (R R' : registry) resp,
     RegisterResourceRequest.getParent req = parent ->
     RegisterResourceRequest.getType req = C ->
     RegisterResourceRequest.getName req = name ->
     registerResource req R = (R', Done resp) ->
     RegisterResourceResponse.getUrn resp = urn_of (B +:+ "$" +:+ C) name) /\
  (forall req (R R' : registry) resp,
     ReadResourceRequest.getParent req = parent ->
     ReadResourceRequest.getType req = C ->
     ReadResourceRequest.getName req = name ->
     readResource req R = (R', Done resp) ->
     ReadResourceResponse.getUrn resp = urn_of (B +:+ "$" +:+ C) name).
Proof.
  intros Hq HB.
  assert (Hp : parent <> "") by (by intros ->).
  assert (Hurn : newUrn (Struct := Struct) parent C name =
                 inr (urn_of (B +:+ "$" +:+ C) name)).
  { rewrite (newUrn_parent _ _ _ _ Hp Hq).
    change (A +:+ "$" +:+ B) with (A +:+ String "$" B).
    by rewrite pop_split_char. }
  split; [exact Hurn|]. split.
  - intros req R R' resp <- <- <- [E _]%registerResource_done. congruence.
  - intros req R R' resp <- <- <- [E _]%readResource_done. congruence.
Qed.

(** C3.  The name [newUrn] synthesizes is "urn:pulumi:" stack "::"
    project "::" effective type "::" logical name, where the effective
    type is the type token itself when the parent is empty, and the type
    the parent hands down, "$" and the type token otherwise; a completed
    [readResource] or [registerResource] reports the name synthesized
    from its request's parent, type and name. *)
Theorem synthesized_name_format :
  (forall parent type name u,
     newUrn (Struct := Struct) parent type name = inr u ->
     exists effectiveType,
       u = "urn:pulumi:" +:+ getStack +:+ "::" +:+ getProject +:+ "::" +:+
           effectiveType +:+ "::" +:+ name /\
       (parent = "" -> effectiveType = type) /\
       (parent <> "" ->
          exists p, inherited_type parent = Some p /\
            effectiveType = p +:+ "$" +:+ type)) /\
  (forall req (R R' : registry) resp,
     readResource req R = (R', Done resp) ->
     newUrn (ReadResourceRequest.getParent req) (ReadResourceRequest.getType req)
            (ReadResourceRequest.getName req) = inr (ReadResourceResponse.getUrn resp)) /\
  (forall req (R R' : registry) resp,
     registerResource req R = (R', Done resp) ->
     newUrn (RegisterResourceRequest.getParent req) (RegisterResourceRequest.getType req)
            (RegisterResourceRequest.getName req) =
       inr (RegisterResourceResponse.getUrn resp)) /\
  (forall type name,
     newUrn (Struct := Struct) "" type name =
       inr ("urn:pulumi:" +:+ getStack +:+ "::" +:+ getProject +:+ "::" +:+
            type +:+ "::" +:+ name)).
Proof.
  split; [|split; [|split]].
  - intros parent type name u E.
    apply newUrn_shape in E as [(Hp & _ & ->)|(Hp & p & Hi & _ & ->)].
    + exists type. by repeat split.
    + eexists. split; [reflexivity|]. split; [done|]. intros _. by exists p.
  - intros req R R' resp E. by apply readResource_done in E as [E _].
  - intros req R R' resp E. by apply registerResource_done in E as [E _].
  - intros type name. apply newUrn_no_parent.
Qed.

(** C4.  [registerResourceOutputs] on a registered name stores the
    outputs message exactly as given in place of the state; a second
    call for the same name leaves the registry as if the first had never
    happened, with the second payload as the state. *)
Theorem outputs_replace_state
    (req1 req2 : RegisterResourceOutputsRequest.t Struct) (R : registry)
    (r : RegisteredResource Struct) :
  let urn := RegisterResourceOutputsRequest.getUrn req1 in
  R !! urn = Some r ->
  RegisterResourceOutputsRequest.getUrn req2 = urn ->
  registerResourceOutputs req1 R =
    (<[urn := Build_RegisteredResource (res_urn r) (res_id r)
                (JMsg (RegisterResourceOutputsRequest.getOutputs req1))]> R,
     Done tt) /\
  registerResourceOutputs req2 (registerResourceOutputs req1 R).1 =
    registerResourceOutputs req2 R /\
  res_state <$> (registerResourceOutputs req2 (registerResourceOutputs req1 R).1).1 !! urn
    = Some (JMsg (RegisterResourceOutputsRequest.getOutputs req2)).
Proof.
  intros urn Hr Hsame.
  assert (E1 : registerResourceOutputs req1 R =
    (<[urn := Build_RegisteredResource (res_urn r) (res_id r)
                (JMsg (RegisterResourceOutputsRequest.getOutputs req1))]> R,
     Done tt)).
  { rewrite registerResourceOutputs_cases. simpl. fold urn. by rewrite Hr. }
  split; [exact E1|].
  rewrite E1. simpl.
  rewrite !registerResourceOutputs_cases. simpl. rewrite Hsame.
  rewrite lookup_insert_eq, Hr. simpl.
  rewrite insert_insert_eq. split; [done|].
  by rewrite lookup_insert_eq.
Qed.


(** C6.  A [readResource] or [registerResource] call that fails because
    the extension point raised, because properties failed to
    deserialize or serialize, or because name synthesis failed, hands
    that error to the callback and leaves the registry as it was.  Each
    of these failures does end the call in this way. *)
Theorem failed_registration_keeps_registry (R : registry) :
  (forall req R' e,
     readResource req R = (R', Failed e) -> resolution_error e -> R' = R) /\
  (forall req R' e,
     registerResource req R = (R', Failed e) -> resolution_error e -> R' = R) /\
  (forall req,
     let inputs := deserializeProperties (ReadResourceRequest.getProperties req) in
     (forall x, inputs = Threw x ->
        readResource req R = (R, Failed (Thrown Deserializer x))) /\
     (forall i x, inputs = Returned i ->
        newResource (ReadResourceRequest.getType req) (ReadResourceRequest.getName req) i
          (ReadResourceRequest.getProvider req) (ReadResourceRequest.getId req)
          (ReadResourceRequest.getCustom req) = Threw x ->
        readResource req R = (R, Failed (Thrown Extension x))) /\
     (forall i result e, inputs = Returned i ->
        newResource (ReadResourceRequest.getType req) (ReadResourceRequest.getName req) i
          (ReadResourceRequest.getProvider req) (ReadResourceRequest.getId req)
          (ReadResourceRequest.getCustom req) = Returned result ->
        newUrn (ReadResourceRequest.getParent req) (ReadResourceRequest.getType req)
          (ReadResourceRequest.getName req) = inl e ->
        readResource req R = (R, Failed e)) /\
     (forall i result urn x, inputs = Returned i ->
        newResource (ReadResourceRequest.getType req) (ReadResourceRequest.getName req) i
          (ReadResourceRequest.getProvider req) (ReadResourceRequest.getId req)
          (ReadResourceRequest.getCustom req) = Returned result ->
        newUrn (ReadResourceRequest.getParent req) (ReadResourceRequest.getType req)
          (ReadResourceRequest.getName req) = inr urn ->
        serializeProperties "" (mock_state result) = Threw x ->
        readResource req R = (R, Failed (Thrown Serializer x)))) /\
  (forall req,
     let inputs := deserializeProperties (RegisterResourceRequest.getObject req) in
     (forall x, inputs = Threw x ->
        registerResource req R = (R, Failed (Thrown Deserializer x))) /\
     (forall i x, inputs = Returned i ->
        newResource (RegisterResourceRequest.getType req)
          (RegisterResourceRequest.getName req) i
          (RegisterResourceRequest.getProvider req)
          (RegisterResourceRequest.getImportid req)
          (RegisterResourceRequest.getCustom req) = Threw x ->
        registerResource req R = (R, Failed (Thrown Extension x))) /\
     (forall i result e, inputs = Returned i ->
        newResource (RegisterResourceRequest.getType req)
          (RegisterResourceRequest.getName req) i
          (RegisterResourceRequest.getProvider req)
          (RegisterResourceRequest.getImportid req)
          (RegisterResourceRequest.getCustom req) = Returned result ->
        newUrn (RegisterResourceRequest.getParent req)
          (RegisterResourceRequest.getType req)
          (RegisterResourceRequest.getName req) = inl e ->
        registerResource req R = (R, Failed e)) /\
     (forall i result urn x, inputs = Returned i ->
        newResource (RegisterResourceRequest.getType req)
          (RegisterResourceRequest.getName req) i
          (RegisterResourceRequest.getProvider req)
          (RegisterResourceRequest.getImportid req)
          (RegisterResourceRequest.getCustom req) = Returned result ->
        newUrn (RegisterResourceRequest.getParent req)
          (RegisterResourceRequest.getType req)
          (RegisterResourceRequest.getName req) = inr urn ->
        serializeProperties "" (mock_state result) = Threw x ->
        registerResource req R = (R, Failed (Thrown Serializer x)))).
Proof.
  split; [|split; [|split]].
  - intros req R' e. rewrite readResource_cases.
    repeat case_match; intros [= <- <-]; done.
  - intros req R' e. rewrite registerResource_cases.
    repeat case_match; intros [= <- <-]; done.
  - intros req inputs. subst inputs.
    repeat split; intros; rewrite readResource_cases;
      repeat match goal with H : _ = _ |- _ => rewrite H end; done.
  - intros req inputs. subst inputs.
    repeat split; intros; rewrite registerResource_cases;
      repeat match goal with H : _ = _ |- _ => rewrite H end; done.
Qed.

(** C7.  A completed [registerResourceOutputs] changes nothing but the
    state of the entry stored under the request's name: that entry keeps
    its name and its physical id, every other name maps to what it did
    before, and no name is added or removed. *)
Theorem outputs_touch_only_state
    (req : RegisterResourceOutputsRequest.t Struct) (R R' : registry) :
  registerResourceOutputs req R = (R', Done tt) ->
  let urn := RegisterResourceOutputsRequest.getUrn req in
  exists r,
    R !! urn = Some r /\
    R' !! urn = Some (Build_RegisteredResource (res_urn r) (res_id r)
                        (JMsg (RegisterResourceOutputsRequest.getOutputs req))) /\
    (forall k, k <> urn -> R' !! k = R !! k) /\
    dom R' = dom R.
Proof.
  rewrite registerResourceOutputs_cases. simpl.
  destruct (R !! RegisterResourceOutputsRequest.getUrn req) as [r|] eqn:E; [|done].
  intros [= <-]. exists r. split; [done|]. split; [by rewrite lookup_insert_eq|].
  split.
  - intros k Hk. by rewrite lookup_insert_ne.
  - by apply dom_insert_lookup_L.
Qed.

(** C8.  After a completed [readResource] or [registerResource] the
    registry holds an entry under the name the response carries, and a
    self-lookup of that name takes the found branch: it never fails
    with the unknown-resource error, and completes whenever the encoder
    accepts the entry. *)
Theorem registration_enables_getResource :
  (forall req (R R' : registry) resp,
     readResource req R = (R', Done resp) ->
     exists r,
       R' !! ReadResourceResponse.getUrn resp = Some r /\
       res_urn r = ReadResourceResponse.getUrn resp /\
       forall ireq, asks_for ireq (JStr (ReadResourceResponse.getUrn resp)) ->
         invoke ireq R' = (R', found r) /\
         (forall k, (invoke ireq R').2 <> Failed (UnknownResource k)) /\
         (forall s, Struct_fromJavaScript (entry_object r) = Returned s ->
            invoke ireq R' = (R', Done (InvokeResponse.Build_t s)))) /\
  (forall req (R R' : registry) resp,
     registerResource req R = (R', Done resp) ->
     exists r,
       R' !! RegisterResourceResponse.getUrn resp = Some r /\
       res_urn r = RegisterResourceResponse.getUrn resp /\
       res_id r = RegisterResourceResponse.getId resp /\
       forall ireq, asks_for ireq (JStr (RegisterResourceResponse.getUrn resp)) ->
         invoke ireq R' = (R', found r) /\
         (forall k, (invoke ireq R').2 <> Failed (UnknownResource k)) /\
         (forall s, Struct_fromJavaScript (entry_object r) = Returned s ->
            invoke ireq R' = (R', Done (InvokeResponse.Build_t s)))).
Proof.
  assert (Hfound : forall (R' : registry) u r ireq,
            R' !! u = Some r -> asks_for ireq (JStr u) ->
            invoke ireq R' = (R', found r) /\
            (forall k, (invoke ireq R').2 <> Failed (UnknownResource k)) /\
            (forall s, Struct_fromJavaScript (entry_object r) = Returned s ->
               invoke ireq R' = (R', Done (InvokeResponse.Build_t s)))).
  { intros R' u r ireq Hr Hreq.
    rewrite (invoke_getResource _ _ _ Hreq). simpl. rewrite Hr.
    unfold found.
    destruct (Struct_fromJavaScript (entry_object r)); repeat split; congruence. }
  split; intros req R R' resp E.
  - apply readResource_done in E as (_ & id & st & ->).
    eexists. split; [apply lookup_insert_eq|]. split; [done|].
    intros ireq Hreq. eapply Hfound; [apply lookup_insert_eq|done].
  - apply registerResource_done in E as (_ & st & ->).
    eexists. split; [apply lookup_insert_eq|]. split; [done|]. split; [done|].
    intros ireq Hreq. eapply Hfound; [apply lookup_insert_eq|done].
Qed.

(** C9, as amended.  Name synthesis is a function of its inputs, and it
    looks at the parent only through the type the parent hands down (the
    last "$"-link of the third "::"-component of its name).  For type
    tokens free of "$" and logical names free of colons, two successful
    syntheses build the same name exactly when they agree on the
    inherited type, the type token and the logical name; parents that
    differ but hand down the same type do not make the names differ. *)
Theorem newUrn_same_name_iff (parent1 type1 name1 parent2 type2 name2 u1 u2 : string) :
  free_of "$" type1 = true -> free_of "$" type2 = true ->
  free_of ":" name1 = true -> free_of ":" name2 = true ->
  newUrn (Struct := Struct) parent1 type1 name1 = inr u1 ->
  newUrn (Struct := Struct) parent2 type2 name2 = inr u2 ->
  (u1 = u2 <->
   inherited_type parent1 = inherited_type parent2 /\ type1 = type2 /\ name1 = name2) /\
  (parent1 = parent2 -> type1 = type2 -> name1 = name2 ->
   newUrn (Struct := Struct) parent1 type1 name1 =
   newUrn (Struct := Struct) parent2 type2 name2).
Proof.
  intros Ht1 Ht2 Hn1 Hn2 E1 E2. split; [|by intros -> -> ->].
  apply newUrn_shape in E1 as [(_ & Hi1 & ->)|(_ & p1 & Hi1 & Hp1 & ->)];
    apply newUrn_shape in E2 as [(_ & Hi2 & ->)|(_ & p2 & Hi2 & Hp2 & ->)];
    rewrite Hi1, Hi2.
  - split.
    + intros [-> ->]%urn_of_inj; done.
    + by intros (_ & -> & ->).
  - split; [|by intros [? _]].
    intros [E ->]%urn_of_inj; [|done..]. exfalso.
    rewrite E, free_of_app in Ht1. simpl in Ht1. by rewrite andb_false_r in Ht1.
  - split; [|by intros [? _]].
    intros [E ->]%urn_of_inj; [|done..]. exfalso.
    rewrite <- E, free_of_app in Ht2. simpl in Ht2. by rewrite andb_false_r in Ht2.
  - split.
    + intros [E ->]%urn_of_inj; [|done..].
      apply (app_char_inj "$") in E as [-> ->]; done.
    + by intros ([= ->] & -> & ->).
Qed.

(** C10.  A non-empty parent with fewer than three "::"-components makes
    name synthesis fail on the missing component; [readResource] and
    [registerResource] then always complete with an error through the
    callback - the name-synthesis error itself once the extension point
    has answered - and leave the registry as it was. *)
Theorem malformed_parent_fails_cleanly (parent : string) (R : registry) :
  parent <> "" ->
  length (split "::" parent) < 3 ->
  (forall type name, newUrn (Struct := Struct) parent type name = inl TypeError) /\
  (forall req, ReadResourceRequest.getParent req = parent ->
     (exists e, readResource req R = (R, Failed e) /\ resolution_error e) /\
     (forall i result,
        deserializeProperties (ReadResourceRequest.getProperties req) = Returned i ->
        newResource (ReadResourceRequest.getType req) (ReadResourceRequest.getName req) i
          (ReadResourceRequest.getProvider req) (ReadResourceRequest.getId req)
          (ReadResourceRequest.getCustom req) = Returned result ->
        readResource req R = (R, Failed TypeError))) /\
  (forall req, RegisterResourceRequest.getParent req = parent ->
     (exists e, registerResource req R = (R, Failed e) /\ resolution_error e) /\
     (forall i result,
        deserializeProperties (RegisterResourceRequest.getObject req) = Returned i ->
        newResource (RegisterResourceRequest.getType req)
          (RegisterResourceRequest.getName req) i
          (RegisterResourceRequest.getProvider req)
          (RegisterResourceRequest.getImportid req)
          (RegisterResourceRequest.getCustom req) = Returned result ->
        registerResource req R = (R, Failed TypeError))).
Proof.
  intros Hp Hlen.
  assert (Hurn : forall type name,
            newUrn (Struct := Struct) parent type name = inl TypeError).
  { intros type name. apply newUrn_malformed; [done|].
    apply lookup_ge_None. lia. }
  split; [exact Hurn|]. split.
  - intros req <-. rewrite readResource_cases, Hurn. split.
    + repeat case_match; by eexists.
    + by intros i result -> ->.
  - intros req <-. rewrite registerResource_cases, Hurn. split.
    + repeat case_match; by eexists.
    + by intros i result -> ->.
Qed.

End Claims.

(** ** The claims on the concrete environment *)

Section Scenarios.

Import JSString Sample.

#[local] Abbreviation bucket_registry :=
  ({[ bucket_urn := bucket_entry ]} : gmap string (RegisteredResource wire)).

Example split_urn :
  split "::" "urn:pulumi:stack::project::A$B::p"
  = ["urn:pulumi:stack"; "project"; "A$B"; "p"].
Proof. reflexivity. Qed.

Example split_leftmost : split "::" "a:::b::" = ["a"; ":b"; ""].
Proof. reflexivity. Qed.

Example split_no_separator : split "::" "bogus" = ["bogus"].
Proof. reflexivity. Qed.

Example split_chain : split "$" "A$B$$C" = ["A"; "B"; ""; "C"].
Proof. reflexivity. Qed.

Example join_four : join "::" ["s"; "p"; "t"; "n"] = "s::p::t::n".
Proof. reflexivity. Qed.

Example newUrn_root :
  newUrn (Struct := wire) "" "pkg:mod:Bucket" "my-bucket" = inr bucket_urn.
Proof. reflexivity. Qed.

Example newUrn_three_levels :
  newUrn (Struct := wire) "urn:pulumi:stack::project::A$B::p" "C" "c"
  = inr "urn:pulumi:stack::project::B$C::c".
Proof. reflexivity. Qed.

Example invoke_call :
  invoke {| InvokeRequest.getTok := "pkg:mod:echo";
            InvokeRequest.getArgs := Packed (JObj [("x", JNum 1)]);
            InvokeRequest.getProvider := "" |} bucket_registry
  = (bucket_registry, Done (InvokeResponse.Build_t (Packed (JObj [("x", JNum 1)])))).
Proof. reflexivity. Qed.

(** The scenario of the specification: the bucket is registered in an empty
    registry and looked up again.  The answer is the entry [{urn, id, state}],
    which is not the state [{foo, arn}] the lookup was said to return. *)
Lemma getResource_answer_is_not_the_state :
  registerResource register_bucket ∅ =
    (bucket_registry,
     Done (RegisterResourceResponse.Build_t bucket_urn (Some "bucket-1")
             (Packed bucket_state))) /\
  invoke (get_resource bucket_urn) bucket_registry =
    (bucket_registry,
     Done (InvokeResponse.Build_t
             (Packed (JObj [("urn", JStr bucket_urn);
                            ("id", JStr "bucket-1");
                            ("state", bucket_state)])))) /\
  (invoke (get_resource bucket_urn) bucket_registry).2 <>
    Done (InvokeResponse.Build_t (Packed bucket_state)).
Proof.
  split; [reflexivity|]. split; [reflexivity|].
  vm_compute. discriminate.
Qed.

Lemma getResource_returns_entry_witness :
  asks_for (get_resource bucket_urn) (JStr bucket_urn) /\
  invoke (get_resource bucket_urn) bucket_registry =
    (bucket_registry,
     Done (InvokeResponse.Build_t (Packed (entry_object bucket_entry)))) /\
  invoke (Runtime0 := rejecting_runtime) (get_resource bucket_urn) bucket_registry =
    (bucket_registry, Failed (Thrown Encoder (JStr "Unexpected struct type."))) /\
  invoke (get_resource "urn:missing") bucket_registry =
    (bucket_registry, Failed (UnknownResource (JStr "urn:missing"))) /\
  invoke (get_resource "urn:missing") (run [RegisterResource register_bucket]) =
    (run [RegisterResource register_bucket],
     Failed (UnknownResource (JStr "urn:missing"))).
Proof.
  assert (H : forall u, asks_for (get_resource u) (JStr u)).
  { intros u. split; [reflexivity|]. eexists. split; reflexivity. }
  assert (H' : asks_for (Runtime0 := rejecting_runtime)
                 (get_resource bucket_urn) (JStr bucket_urn)).
  { split; [reflexivity|]. eexists. split; reflexivity. }
  split; [apply H|]. split; [|split; [|split]].
  - exact (proj1 (proj2 (proj2
             (proj1 (proj2 (getResource_returns_entry _ _ bucket_registry
                              (H bucket_urn)))
                bucket_entry eq_refl)))
             (Packed (entry_object bucket_entry)) eq_refl).
  - exact (proj2 (proj2 (proj2
             (proj1 (proj2 (getResource_returns_entry
                              (Runtime0 := rejecting_runtime) (Mocks0 := mocks)
                              _ _ bucket_registry H'))
                bucket_entry eq_refl)))
             (JStr "Unexpected struct type.") eq_refl).
  - exact (proj1 (proj2 (proj2 (getResource_returns_entry _ _ bucket_registry
                                  (H "urn:missing")))) eq_refl).
  - apply (proj2 (proj2 (proj2 (getResource_returns_entry _ _ _ (H "urn:missing"))))
             [RegisterResource register_bucket] "urn:missing" eq_refl eq_refl).
    intros q ->%list_elem_of_singleton. vm_compute. discriminate.
Defined.

Lemma child_inherits_innermost_type_witness :
  split "::" "urn:pulumi:stack::project::pkg:mod:A$pkg:mod:B::p" !! 2%nat
    = Some ("pkg:mod:A" +:+ "$" +:+ "pkg:mod:B") /\
  free_of "$" "pkg:mod:B" = true /\
  newUrn (Struct := wire) "urn:pulumi:stack::project::pkg:mod:A$pkg:mod:B::p"
    "pkg:mod:C" "c"
    = inr "urn:pulumi:stack::project::pkg:mod:B$pkg:mod:C::c".
Proof.
  split; [reflexivity|]. split; [reflexivity|].
  exact (proj1 (child_inherits_innermost_type (Struct := wire)
                  "urn:pulumi:stack::project::pkg:mod:A$pkg:mod:B::p"
                  "pkg:mod:A" "pkg:mod:B" "pkg:mod:C" "c" eq_refl eq_refl)).
Defined.

Lemma synthesized_name_format_witness :
  registerResource register_bucket ∅ =
    (bucket_registry,
     Done (RegisterResourceResponse.Build_t bucket_urn (Some "bucket-1")
             (Packed bucket_state))) /\
  newUrn (Struct := wire) "" "pkg:mod:Bucket" "my-bucket" = inr bucket_urn /\
  exists effectiveType,
    bucket_urn = "urn:pulumi:" +:+ "stack" +:+ "::" +:+ "project" +:+ "::" +:+
                 effectiveType +:+ "::" +:+ "my-bucket" /\
    ("" = "" -> effectiveType = "pkg:mod:Bucket") /\
    ("" <> "" -> exists p, inherited_type "" = Some p /\
                   effectiveType = p +:+ "$" +:+ "pkg:mod:Bucket").
Proof.
  pose proof (synthesized_name_format (Struct := wire)) as (Hshape & _ & Hreg & _).
  assert (E : registerResource register_bucket ∅ =
    (bucket_registry,
     Done (RegisterResourceResponse.Build_t bucket_urn (Some "bucket-1")
             (Packed bucket_state)))) by reflexivity.
  split; [exact E|]. split.
  - exact (Hreg _ _ _ _ E).
  - exact (Hshape _ _ _ _ (Hreg _ _ _ _ E)).
Defined.

Lemma outputs_replace_state_witness :
  bucket_registry !! bucket_urn = Some bucket_entry /\
  res_state <$>
    (registerResourceOutputs (outputs bucket_urn (JObj [("b", JStr "2")]))
       (registerResourceOutputs (outputs bucket_urn (JObj [("a", JStr "1")]))
          bucket_registry).1).1 !! bucket_urn
  = Some (JMsg (Packed (JObj [("b", JStr "2")]))).
Proof.
  split; [reflexivity|].
  exact (proj2 (proj2 (outputs_replace_state
                         (outputs bucket_urn (JObj [("a", JStr "1")]))
                         (outputs bucket_urn (JObj [("b", JStr "2")]))
                         bucket_registry bucket_entry eq_refl eq_refl))).
Defined.


Lemma failed_registration_keeps_registry_witness :
  registerResource (register_child "pkg:mod:Other" "") bucket_registry =
    (bucket_registry, Failed (Thrown Extension (JStr "unknown type"))) /\
  resolution_error (Thrown Extension (JStr "unknown type" : jsval wire)) /\
  bucket_registry = bucket_registry.
Proof.
  split; [reflexivity|]. split; [exact I|].
  exact (proj1 (proj2 (failed_registration_keeps_registry bucket_registry))
           (register_child "pkg:mod:Other" "") bucket_registry
           (Thrown Extension (JStr "unknown type")) eq_refl I).
Defined.

Lemma outputs_touch_only_state_witness :
  exists r,
    bucket_registry !! bucket_urn = Some r /\
    (registerResourceOutputs (outputs bucket_urn JNull) bucket_registry).1 !! bucket_urn
      = Some (Build_RegisteredResource (res_urn r) (res_id r) (JMsg (Packed JNull))) /\
    (forall k, k <> bucket_urn ->
       (registerResourceOutputs (outputs bucket_urn JNull) bucket_registry).1 !! k
       = bucket_registry !! k) /\
    dom (registerResourceOutputs (outputs bucket_urn JNull) bucket_registry).1
      = dom bucket_registry.
Proof.
  exact (outputs_touch_only_state (outputs bucket_urn JNull) bucket_registry
           (registerResourceOutputs (outputs bucket_urn JNull) bucket_registry).1
           eq_refl).
Defined.

Lemma registration_enables_getResource_witness :
  exists r,
    bucket_registry !! bucket_urn = Some r /\
    res_urn r = bucket_urn /\
    forall ireq, asks_for ireq (JStr bucket_urn) ->
      invoke ireq bucket_registry = (bucket_registry, found r) /\
      (forall k, (invoke ireq bucket_registry).2 <> Failed (UnknownResource k)) /\
      (forall s, Struct_fromJavaScript (entry_object r) = Returned s ->
         invoke ireq bucket_registry = (bucket_registry, Done (InvokeResponse.Build_t s))).
Proof.
  exact (proj1 registration_enables_getResource (read_bucket "") ∅ bucket_registry
           (ReadResourceResponse.Build_t bucket_urn (Packed bucket_state)) eq_refl).
Defined.

(** Distinct triples that are given the same name: two registrations
    under different parents, of different chains, whose innermost type
    is the same; and, without any parent, a "::" that moves from the
    logical name into the type token. *)
Lemma distinct_triples_same_name :
  "urn:pulumi:stack::project::pkg:mod:A$pkg:mod:B::p" <>
    "urn:pulumi:stack::project::pkg:mod:B::q" /\
  newUrn (Struct := wire) "urn:pulumi:stack::project::pkg:mod:A$pkg:mod:B::p"
    "pkg:mod:C" "c"
    = inr "urn:pulumi:stack::project::pkg:mod:B$pkg:mod:C::c" /\
  newUrn (Struct := wire) "urn:pulumi:stack::project::pkg:mod:B::q"
    "pkg:mod:C" "c"
    = inr "urn:pulumi:stack::project::pkg:mod:B$pkg:mod:C::c" /\
  (registerResource
     (register_child "pkg:mod:Bucket" "urn:pulumi:stack::project::pkg:mod:A$pkg:mod:B::p")
     ∅).2 =
  (registerResource
     (register_child "pkg:mod:Bucket" "urn:pulumi:stack::project::pkg:mod:B::q")
     ∅).2 /\
  ("a", "b::c") <> ("a::b", "c") /\
  newUrn (Struct := wire) "" "a" "b::c" = newUrn (Struct := wire) "" "a::b" "c".
Proof. repeat split; (discriminate || reflexivity). Qed.

Lemma newUrn_same_name_iff_witness :
  free_of "$" "pkg:mod:C" = true /\ free_of ":" "c" = true /\
  ("urn:pulumi:stack::project::pkg:mod:B$pkg:mod:C::c" =
   "urn:pulumi:stack::project::pkg:mod:B$pkg:mod:C::c" <->
   inherited_type "urn:pulumi:stack::project::pkg:mod:A$pkg:mod:B::p" =
   inherited_type "urn:pulumi:stack::project::pkg:mod:B::q" /\
   "pkg:mod:C" = "pkg:mod:C" /\ "c" = "c").
Proof.
  split; [reflexivity|]. split; [reflexivity|].
  exact (proj1 (newUrn_same_name_iff (Struct := wire)
                  "urn:pulumi:stack::project::pkg:mod:A$pkg:mod:B::p" "pkg:mod:C" "c"
                  "urn:pulumi:stack::project::pkg:mod:B::q" "pkg:mod:C" "c"
                  "urn:pulumi:stack::project::pkg:mod:B$pkg:mod:C::c"
                  "urn:pulumi:stack::project::pkg:mod:B$pkg:mod:C::c"
                  eq_refl eq_refl eq_refl eq_refl eq_refl eq_refl)).
Defined.

Lemma malformed_parent_fails_cleanly_witness :
  "bogus" <> "" /\
  length (split "::" "bogus") < 3 /\
  newUrn (Struct := wire) "bogus" "pkg:mod:Bucket" "my-bucket" = inl TypeError /\
  readResource (read_bucket "bogus") bucket_registry =
    (bucket_registry, Failed TypeError) /\
  registerResource (register_child "pkg:mod:Bucket" "a::b") bucket_registry =
    (bucket_registry, Failed TypeError).
Proof.
  assert (H1 : "bogus" <> "") by discriminate.
  assert (H2 : length (split "::" "bogus") < 3) by (vm_compute; lia).
  assert (H3 : "a::b" <> "") by discriminate.
  assert (H4 : length (split "::" "a::b") < 3) by (vm_compute; lia).
  split; [exact H1|]. split; [exact H2|].
  pose proof (malformed_parent_fails_cleanly "bogus" bucket_registry H1 H2)
    as (Hurn & Hread & _).
  pose proof (malformed_parent_fails_cleanly "a::b" bucket_registry H3 H4)
    as (_ & _ & Hreg).
  split; [apply Hurn|]. split.
  - exact (proj2 (Hread (read_bucket "bogus") eq_refl) _ _ eq_refl eq_refl).
  - exact (proj2 (Hreg (register_child "pkg:mod:Bucket" "a::b") eq_refl) _ _ eq_refl eq_refl).
Defined.

End Scenarios.

(** * Further properties of the monitor *)

(** ** Helper facts *)

Section HandlerFacts.

Context {Struct : Type} `{!Runtime Struct} `{!Mocks Struct}.

#[local] Abbreviation registry := (gmap string (RegisteredResource Struct)).

Import JSString.

Ltac step_body :=
  unfold handler, bind, external, lift, ret, throw, resources_set, resources_get.

(** The function-call branch of [invoke]. *)
Lemma invoke_call_cases (req : InvokeRequest.t Struct) (R : registry) :
  InvokeRequest.getTok req <> "pulumi:pulumi:getResource" ->
  invoke req R =
  (R, match deserializeProperties (InvokeRequest.getArgs req) with
      | Threw x => Failed (Thrown Deserializer x)
      | Returned inputs =>
          match call (InvokeRequest.getTok req) inputs (InvokeRequest.getProvider req) with
          | Threw x => Failed (Thrown Extension x)
          | Returned result =>
              match serializeProperties "" result with
              | Threw x => Failed (Thrown Serializer x)
              | Returned serialized =>
                  match Struct_fromJavaScript serialized with
                  | Threw x => Failed (Thrown Encoder x)
                  | Returned response => Done (InvokeResponse.Build_t response)
                  end
              end
          end
      end).
Proof.
  intros Htok. unfold invoke. step_body. simpl.
  destruct (deserializeProperties (InvokeRequest.getArgs req)) as [inputs|x];
    simpl; [|done].
  case_decide; [done|]. simpl.
  destruct (call _ inputs _) as [result|x]; simpl; [|done].
  destruct (serializeProperties "" result) as [serialized|x]; simpl; [|done].
  by destruct (Struct_fromJavaScript serialized).
Qed.

(** A registration acts on any registry as it acts on the empty one, laid
    over what was there. *)
Lemma readResource_upsert (req : ReadResourceRequest.t Struct) (R : registry) :
  readResource req R = ((readResource req ∅).1 ∪ R, (readResource req ∅).2).
Proof.
  rewrite !readResource_cases.
  repeat case_match; simpl;
    rewrite ?(left_id_L ∅ (∪)), <- ?insert_union_l, ?(left_id_L ∅ (∪)); done.
Qed.

Lemma registerResource_upsert (req : RegisterResourceRequest.t Struct) (R : registry) :
  registerResource req R = ((registerResource req ∅).1 ∪ R, (registerResource req ∅).2).
Proof.
  rewrite !registerResource_cases.
  repeat case_match; simpl;
    rewrite ?(left_id_L ∅ (∪)), <- ?insert_union_l, ?(left_id_L ∅ (∪)); done.
Qed.

(** A completed registration stores one entry, under the name it
    reports, and does the same on every registry. *)
Lemma registerResource_done_everywhere
    (req : RegisterResourceRequest.t Struct) (R R' : registry)
    (resp : RegisterResourceResponse.t Struct) :
  registerResource req R = (R', Done resp) ->
  exists st,
    forall R0 : registry,
      registerResource req R0 =
        (<[RegisterResourceResponse.getUrn resp :=
             Build_RegisteredResource (RegisterResourceResponse.getUrn resp)
               (RegisterResourceResponse.getId resp) st]> R0,
         Done resp).
Proof.
  rewrite registerResource_cases. intros E.
  repeat case_match; simplify_eq/=.
  eexists. intros R0. rewrite registerResource_cases.
  repeat match goal with H : _ = _ |- _ => rewrite H end. done.
Qed.

Lemma readResource_done_everywhere
    (req : ReadResourceRequest.t Struct) (R R' : registry)
    (resp : ReadResourceResponse.t Struct) :
  readResource req R = (R', Done resp) ->
  exists id st,
    forall R0 : registry,
      readResource req R0 =
        (<[ReadResourceResponse.getUrn resp :=
             Build_RegisteredResource (ReadResourceResponse.getUrn resp) id st]> R0,
         Done resp).
Proof.
  rewrite readResource_cases. intros E.
  repeat case_match; simplify_eq/=.
  do 2 eexists. intros R0. rewrite readResource_cases.
  repeat match goal with H : _ = _ |- _ => rewrite H end. done.
Qed.

(** What is not a registration leaves an empty registry empty. *)
Lemma serve_empty (q : request) :
  is_registration q = false -> serve q (∅ : registry) = ∅.
Proof.
  destruct q as [req|req|req|req|req]; simpl; intros Hq; try done.
  apply invoke_registry.
Qed.

(** A registration, seen as a call of a history, lays its commit over the
    registry. *)
Lemma serve_registration (q : request) (R : registry) :
  is_registration q = true -> serve q R = serve q ∅ ∪ R.
Proof.
  destruct q as [req|req|req|req|req]; simpl; try done; intros _.
  - by rewrite readResource_upsert.
  - by rewrite registerResource_upsert.
Qed.

(** Every name a registry holds after one more call was there before or
    was synthesized by [newUrn]. *)
Lemma serve_names (q : request) (R : registry) (k : string) :
  k ∈ dom (serve q R) ->
  k ∈ dom R \/ exists parent type name, newUrn (Struct := Struct) parent type name = inr k.
Proof.
  rewrite dom_serve. intros [Hk|Hk]%elem_of_union; [by left|]. right.
  unfold commits in Hk. destruct q as [req|req|req|req|req]; simpl in Hk.
  - rewrite invoke_registry, dom_empty_L in Hk. by apply not_elem_of_empty in Hk.
  - destruct (readResource req ∅) as [R' [resp|e]] eqn:E; simpl in Hk.
    + pose proof (readResource_done _ _ _ _ E) as (Hurn & id & st & ->).
      rewrite dom_insert_L, dom_empty_L, (right_id_L ∅ (∪)) in Hk.
      apply elem_of_singleton in Hk as ->. eauto.
    + rewrite readResource_cases in E.
      repeat case_match; simplify_eq/=;
        rewrite ?dom_insert_L, ?dom_empty_L, ?(right_id_L ∅ (∪)) in Hk;
        first [by apply not_elem_of_empty in Hk
              |apply elem_of_singleton in Hk as ->; eauto].
  - destruct (registerResource req ∅) as [R' [resp|e]] eqn:E; simpl in Hk.
    + pose proof (registerResource_done _ _ _ _ E) as (Hurn & st & ->).
      rewrite dom_insert_L, dom_empty_L, (right_id_L ∅ (∪)) in Hk.
      apply elem_of_singleton in Hk as ->. eauto.
    + rewrite registerResource_cases in E.
      repeat case_match; simplify_eq/=;
        rewrite ?dom_insert_L, ?dom_empty_L, ?(right_id_L ∅ (∪)) in Hk;
        first [by apply not_elem_of_empty in Hk
              |apply elem_of_singleton in Hk as ->; eauto].
  - rewrite registerResourceOutputs_cases in Hk. simpl in Hk.
    rewrite lookup_empty in Hk. simpl in Hk. rewrite dom_empty_L in Hk.
    by apply not_elem_of_empty in Hk.
  - simpl in Hk. unfold supportsFeature, handler, ret in Hk. simpl in Hk.
    rewrite dom_empty_L in Hk. by apply not_elem_of_empty in Hk.
Qed.

(** A segment is one piece. *)
Lemma split_one_segment (s : string) : segment s = true -> split "::" s = [s].
Proof.
  induction s as [|c s IH]; [done|]. intros Hs. rewrite split_step.
  assert (Hnone : strip_prefix "::" (String c s) = None).
  { cbn [strip_prefix]. destruct (Ascii.eqb ":" c) eqn:Ec; [|done].
    apply Ascii.eqb_eq in Ec as <-. destruct s as [|c' s]; [done|].
    destruct (Ascii.eqb ":" c') eqn:Ec'; [|done].
    apply Ascii.eqb_eq in Ec' as <-. done. }
  rewrite Hnone, IH; [done|].
  destruct s as [|c' s]; [done|].
  cbn [segment] in Hs. by apply andb_prop in Hs as [_ Hs].
Qed.

(** The first "::"-component of a synthesized name. *)
Lemma urn_head_segment :
  getStack <> "" -> free_of ":" getStack = true ->
  segment ("urn:pulumi:" +:+ getStack) = true.
Proof.
  intros Hne Hstack. destruct getStack as [|c stack]; [done|].
  cbn [free_of] in Hstack. apply andb_prop in Hstack as [Hc Hs].
  apply free_of_segment in Hs.
  rewrite !app_cons, app_nil_l. cbn [segment Ascii.eqb Bool.eqb andb negb].
  apply negb_true_iff in Hc. rewrite Hc.
  destruct stack as [|c' stack]; [done|]. by rewrite Hs.
Qed.

End HandlerFacts.

(** ** Lookups and function calls *)

Section Lookups.

Context {Struct : Type} `{!Runtime Struct} `{!Mocks Struct}.

#[local] Abbreviation registry := (gmap string (RegisteredResource Struct)).

Import JSString.

(** X1.  Nothing but a registration or a completed
    [registerResourceOutputs] writes to the registry: [invoke] leaves it
    as it was for every token and every outcome, [supportsFeature]
    answers [true] and leaves it as it was, and a
    [registerResourceOutputs] that fails has failed on an unknown name
    and has left it as it was. *)
Theorem lookups_never_write (R : registry) :
  (forall req, (invoke req R).1 = R) /\
  (forall req, supportsFeature req R = (R, Done true)) /\
  (forall req R' e,
     registerResourceOutputs req R = (R', Failed e) ->
     R' = R /\
     e = UnknownResource (JStr (RegisterResourceOutputsRequest.getUrn req)) /\
     R !! RegisterResourceOutputsRequest.getUrn req = None).
Proof.
  split; [|split].
  - intros req. apply invoke_registry.
  - done.
  - intros req R' e. rewrite registerResourceOutputs_cases. simpl.
    destruct (R !! RegisterResourceOutputsRequest.getUrn req); [done|].
    by intros [= <- <-].
Qed.

(** X2.  For a token other than the reserved one, [invoke] completes
    exactly when the arguments deserialize, the extension point's [call]
    returns on the token, the deserialized arguments and the provider,
    its result serializes and the serialized result encodes; the
    response then carries that encoding.  The registry plays no part:
    the outcome is the same on every registry. *)
Theorem invoke_call_completes_iff
    (req : InvokeRequest.t Struct) (R : registry) (resp : InvokeResponse.t Struct) :
  InvokeRequest.getTok req <> "pulumi:pulumi:getResource" ->
  (invoke req R = (R, Done resp) <->
   exists inputs result serialized,
     deserializeProperties (InvokeRequest.getArgs req) = Returned inputs /\
     call (InvokeRequest.getTok req) inputs (InvokeRequest.getProvider req)
       = Returned result /\
     serializeProperties "" result = Returned serialized /\
     Struct_fromJavaScript serialized = Returned (InvokeResponse.getReturn resp)) /\
  (forall R2 : registry, (invoke req R2).2 = (invoke req R).2).
Proof.
  intros Htok. split.
  - rewrite (invoke_call_cases _ _ Htok). split.
    + intros E. repeat case_match; simplify_eq/=. eauto 10.
    + intros (inputs & result & serialized & -> & -> & -> & ->).
      by destruct resp.
  - intros R2. by rewrite !(invoke_call_cases _ _ Htok).
Qed.

(** X4.  A self-lookup whose arguments deserialize to [undefined] or
    [null] fails with a [TypeError] on reading [urn]; one whose [urn]
    property is missing or is not a string fails with the
    unknown-resource error, whatever the registry holds. *)
Theorem getResource_bad_arguments
    (req : InvokeRequest.t Struct) (inputs : jsval Struct) (R : registry) :
  InvokeRequest.getTok req = "pulumi:pulumi:getResource" ->
  deserializeProperties (InvokeRequest.getArgs req) = Returned inputs ->
  (inputs = JUndefined \/ inputs = JNull -> invoke req R = (R, Failed TypeError)) /\
  (forall key, js_get inputs "urn" = inr key -> (forall s, key <> JStr s) ->
     invoke req R = (R, Failed (UnknownResource key))) /\
  (forall fields, inputs = JObj fields ->
     (forall v, ("urn", v) ∉ fields) ->
     invoke req R = (R, Failed (UnknownResource JUndefined))).
Proof.
  intros Htok Hin.
  assert (Hkey : forall key, js_get inputs "urn" = inr key ->
            (forall s, key <> JStr s) ->
            invoke req R = (R, Failed (UnknownResource key))).
  { intros key Hget Hkey.
    rewrite (invoke_getResource req key R); [|split; eauto].
    destruct key; try done. by destruct (Hkey s). }
  split; [|split; [exact Hkey|]].
  - intros Hbad. unfold invoke.
    unfold handler, bind, external, lift, ret, throw, resources_get.
    rewrite Hin, Htok. simpl. by destruct Hbad as [-> | ->].
  - assert (Hfield : forall fields : list (string * jsval Struct),
              (forall v, ("urn", v) ∉ fields) -> field fields "urn" = JUndefined).
    { induction fields as [|[k v] fields IH]; [done|]. intros Hnone. simpl.
      case_decide as Hk.
      + subst k. exfalso. apply (Hnone v). constructor.
      + apply IH. intros v' Hv'. apply (Hnone v'). by constructor. }
    intros fields -> Hnone. apply Hkey; [|done]. simpl. f_equal. by apply Hfield.
Qed.

End Lookups.

Section ReservedToken.

Context {Struct : Type} `{!Runtime Struct}.

(** X3.  The reserved token is served by the monitor itself: whatever
    extension point is installed, [invoke] on
    "pulumi:pulumi:getResource" goes the same way, so the lookup cannot
    be mocked. *)
Theorem reserved_token_bypasses_mocks
    (mocks1 mocks2 : Mocks Struct) (req : InvokeRequest.t Struct)
    (R : gmap string (RegisteredResource Struct)) :
  InvokeRequest.getTok req = "pulumi:pulumi:getResource" ->
  invoke (Mocks0 := mocks1) req R = invoke (Mocks0 := mocks2) req R.
Proof.
  intros Htok. unfold invoke.
  unfold handler, bind, external, lift, ret, throw, resources_get.
  rewrite Htok. simpl.
  by destruct (deserializeProperties (InvokeRequest.getArgs req)).
Qed.

End ReservedToken.

(** ** Registrations *)

Section Registrations.

Context {Struct : Type} `{!Runtime Struct} `{!Mocks Struct}.

#[local] Abbreviation registry := (gmap string (RegisteredResource Struct)).

Import JSString.

(** X5.  A registration never reads the registry: [readResource] and
    [registerResource] answer on any registry as they answer on an empty
    one, and what they leave is what they leave in an empty one laid over
    what was there - an entry under the same name is replaced, every
    other entry stays. *)
Theorem registration_is_upsert (R : registry) :
  (forall req, readResource req R =
     ((readResource req ∅).1 ∪ R, (readResource req ∅).2)) /\
  (forall req, registerResource req R =
     ((registerResource req ∅).1 ∪ R, (registerResource req ∅).2)) /\
  (forall req k, k ∉ dom (readResource req ∅).1 ->
     (readResource req R).1 !! k = R !! k) /\
  (forall req k, k ∉ dom (registerResource req ∅).1 ->
     (registerResource req R).1 !! k = R !! k).
Proof.
  split; [|split; [|split]].
  - intros req. apply readResource_upsert.
  - intros req. apply registerResource_upsert.
  - intros req k Hk. rewrite readResource_upsert. simpl.
    apply not_elem_of_dom in Hk. by rewrite lookup_union_r.
  - intros req k Hk. rewrite registerResource_upsert. simpl.
    apply not_elem_of_dom in Hk. by rewrite lookup_union_r.
Qed.

(** X6.  [readResource] and [registerResource] are the same operation on
    the registry: for requests that agree field by field ([properties]
    with [object], [id] with [importid]) they leave the same registry,
    fail with the same error or complete with the same name and the same
    encoded state. *)
Theorem read_and_register_agree
    (rd : ReadResourceRequest.t Struct) (rg : RegisterResourceRequest.t Struct)
    (R : registry) :
  ReadResourceRequest.getType rd = RegisterResourceRequest.getType rg ->
  ReadResourceRequest.getName rd = RegisterResourceRequest.getName rg ->
  ReadResourceRequest.getProperties rd = RegisterResourceRequest.getObject rg ->
  ReadResourceRequest.getProvider rd = RegisterResourceRequest.getProvider rg ->
  ReadResourceRequest.getId rd = RegisterResourceRequest.getImportid rg ->
  ReadResourceRequest.getCustom rd = RegisterResourceRequest.getCustom rg ->
  ReadResourceRequest.getParent rd = RegisterResourceRequest.getParent rg ->
  (readResource rd R).1 = (registerResource rg R).1 /\
  match (readResource rd R).2, (registerResource rg R).2 with
  | Done a, Done b =>
      ReadResourceResponse.getUrn a = RegisterResourceResponse.getUrn b /\
      ReadResourceResponse.getProperties a = RegisterResourceResponse.getObject b
  | Failed e1, Failed e2 => e1 = e2
  | _, _ => False
  end.
Proof.
  intros Ht Hn Hp Hpr Hi Hc Hpa.
  rewrite readResource_cases, registerResource_cases.
  rewrite Ht, Hn, Hp, Hpr, Hi, Hc, Hpa.
  repeat case_match; simplify_eq/=; done.
Qed.

(** X7.  A registration completes exactly when every step of it does;
    the entry it stores then has the synthesized name, the id the
    extension point returned (not the one the request carried) and the
    serialized form of the state the extension point returned, and the
    response carries the same name and id and the encoding of that
    serialized state. *)
Theorem registerResource_completes_iff
    (req : RegisterResourceRequest.t Struct) (R R' : registry)
    (resp : RegisterResourceResponse.t Struct) :
  registerResource req R = (R', Done resp) <->
  exists inputs result urn st object,
    deserializeProperties (RegisterResourceRequest.getObject req) = Returned inputs /\
    newResource (RegisterResourceRequest.getType req)
      (RegisterResourceRequest.getName req) inputs
      (RegisterResourceRequest.getProvider req)
      (RegisterResourceRequest.getImportid req)
      (RegisterResourceRequest.getCustom req) = Returned result /\
    newUrn (RegisterResourceRequest.getParent req)
      (RegisterResourceRequest.getType req)
      (RegisterResourceRequest.getName req) = inr urn /\
    serializeProperties "" (mock_state result) = Returned st /\
    Struct_fromJavaScript st = Returned object /\
    R' = <[urn := Build_RegisteredResource urn (mock_id result) st]> R /\
    resp = RegisterResourceResponse.Build_t urn (mock_id result) object.
Proof.
  rewrite registerResource_cases. split.
  - intros E. repeat case_match; simplify_eq/=. eauto 12.
  - intros (inputs & result & urn & st & object & -> & -> & -> & -> & -> & -> & ->).
    done.
Qed.

(** X8.  The entry is stored before the response is encoded: when the
    encoder rejects the serialized state, [registerResource] and
    [readResource] fail through the callback with the encoder's error
    and the entry is in the registry all the same. *)
Theorem commit_precedes_encoding (R : registry) :
  (forall req inputs result urn st x,
     deserializeProperties (RegisterResourceRequest.getObject req) = Returned inputs ->
     newResource (RegisterResourceRequest.getType req)
       (RegisterResourceRequest.getName req) inputs
       (RegisterResourceRequest.getProvider req)
       (RegisterResourceRequest.getImportid req)
       (RegisterResourceRequest.getCustom req) = Returned result ->
     newUrn (RegisterResourceRequest.getParent req)
       (RegisterResourceRequest.getType req)
       (RegisterResourceRequest.getName req) = inr urn ->
     serializeProperties "" (mock_state result) = Returned st ->
     Struct_fromJavaScript st = Threw x ->
     registerResource req R =
       (<[urn := Build_RegisteredResource urn (mock_id result) st]> R,
        Failed (Thrown Encoder x)) /\
     (registerResource req R).1 !! urn =
       Some (Build_RegisteredResource urn (mock_id result) st)) /\
  (forall req inputs result urn st x,
     deserializeProperties (ReadResourceRequest.getProperties req) = Returned inputs ->
     newResource (ReadResourceRequest.getType req)
       (ReadResourceRequest.getName req) inputs
       (ReadResourceRequest.getProvider req)
       (ReadResourceRequest.getId req)
       (ReadResourceRequest.getCustom req) = Returned result ->
     newUrn (ReadResourceRequest.getParent req)
       (ReadResourceRequest.getType req)
       (ReadResourceRequest.getName req) = inr urn ->
     serializeProperties "" (mock_state result) = Returned st ->
     Struct_fromJavaScript st = Threw x ->
     readResource req R =
       (<[urn := Build_RegisteredResource urn (mock_id result) st]> R,
        Failed (Thrown Encoder x)) /\
     (readResource req R).1 !! urn =
       Some (Build_RegisteredResource urn (mock_id result) st)).
Proof.
  split; intros req inputs result urn st x Hin Hres Hurn Hst Henc.
  - rewrite registerResource_cases, Hin, Hres, Hurn, Hst, Henc. simpl.
    split; [done|]. apply lookup_insert_eq.
  - rewrite readResource_cases, Hin, Hres, Hurn, Hst, Henc. simpl.
    split; [done|]. apply lookup_insert_eq.
Qed.

(** X9.  Registration, then [registerResourceOutputs] on the name the
    registration reported, then a self-lookup of that name: the outputs
    call completes and the lookup finds the entry with the name and the
    id of the registration and the outputs message as its state. *)
Theorem register_outputs_lookup
    (req : RegisterResourceRequest.t Struct)
    (o : RegisterResourceOutputsRequest.t Struct)
    (ireq : InvokeRequest.t Struct) (R R1 : registry)
    (resp : RegisterResourceResponse.t Struct) :
  registerResource req R = (R1, Done resp) ->
  RegisterResourceOutputsRequest.getUrn o = RegisterResourceResponse.getUrn resp ->
  asks_for ireq (JStr (RegisterResourceResponse.getUrn resp)) ->
  (registerResourceOutputs o R1).2 = Done tt /\
  invoke ireq (registerResourceOutputs o R1).1 =
    ((registerResourceOutputs o R1).1,
     found (Build_RegisteredResource (RegisterResourceResponse.getUrn resp)
              (RegisterResourceResponse.getId resp)
              (JMsg (RegisterResourceOutputsRequest.getOutputs o)))).
Proof.
  intros [_ (st & ->)]%registerResource_done Ho Hask.
  rewrite registerResourceOutputs_cases. simpl.
  rewrite Ho, lookup_insert_eq. simpl. split; [done|].
  rewrite (invoke_getResource _ _ _ Hask). simpl.
  by rewrite lookup_insert_eq.
Qed.

(** X10.  Registering again throws the outputs away: after a completed
    [registerResource] and a [registerResourceOutputs] on its name, the
    same [registerResource] request brings the registry back to where
    the first registration left it. *)
Theorem reregistration_discards_outputs
    (req : RegisterResourceRequest.t Struct)
    (o : RegisterResourceOutputsRequest.t Struct) (R R1 : registry)
    (resp : RegisterResourceResponse.t Struct) :
  registerResource req R = (R1, Done resp) ->
  RegisterResourceOutputsRequest.getUrn o = RegisterResourceResponse.getUrn resp ->
  registerResource req (registerResourceOutputs o R1).1 = (R1, Done resp).
Proof.
  intros E Ho.
  destruct (registerResource_done_everywhere _ _ _ _ E) as (st & Hall).
  rewrite Hall in E. injection E as <-.
  rewrite registerResourceOutputs_cases. simpl.
  rewrite Ho, lookup_insert_eq. simpl.
  by rewrite Hall, !insert_insert_eq.
Qed.

End Registrations.

(** ** Histories of calls *)

Section Histories.

Context {Struct : Type} `{!Runtime Struct} `{!Mocks Struct}.

#[local] Abbreviation registry := (gmap string (RegisteredResource Struct)).

Import JSString.

(** X11.  No call removes a name: whatever calls follow, every name
    registered after a history is still registered after the longer
    one. *)
Theorem registry_grows (history later : list request) :
  dom (run history) ⊆ dom (run (history ++ later)).
Proof.
  induction later as [|q later IH] using rev_ind.
  - by rewrite (right_id_L [] (++)).
  - rewrite (assoc_L (++)), dom_run_snoc.
    etrans; [exact IH|]. apply union_subseteq_l.
Qed.

(** X12.  Only [readResource] and [registerResource] add names: a
    history without them leaves the registry of a fresh monitor empty,
    so that every [registerResourceOutputs] in it or after it fails on
    an unknown name - outputs cannot create an entry. *)
Theorem only_registrations_add_names (history : list request) :
  (forall q, q ∈ history -> is_registration q = false) ->
  run history = ∅ /\
  forall req,
    registerResourceOutputs req (run history) =
      (run history,
       Failed (UnknownResource (JStr (RegisterResourceOutputsRequest.getUrn req)))).
Proof.
  intros Hnone.
  assert (Hrun : run history = ∅).
  { induction history as [|q history IH] using rev_ind; [done|].
    unfold run. rewrite foldl_snoc. fold (run history).
    rewrite IH.
    - apply serve_empty, Hnone, elem_of_app. right. by apply list_elem_of_singleton.
    - intros q' Hq'. apply Hnone, elem_of_app. by left. }
  split; [exact Hrun|]. intros req.
  rewrite registerResourceOutputs_cases. simpl. by rewrite Hrun, lookup_empty.
Qed.

(** X13.  Every name in the registry of a monitor was built by
    [newUrn]: it is "urn:pulumi:", the stack, the project, an effective
    type and a logical name, joined by "::". *)
Theorem registered_names_are_synthesized (history : list request) (k : string) :
  k ∈ dom (run history) ->
  exists parent type name effectiveType,
    newUrn (Struct := Struct) parent type name = inr k /\
    k = "urn:pulumi:" +:+ getStack +:+ "::" +:+ getProject +:+ "::" +:+
        effectiveType +:+ "::" +:+ name.
Proof.
  induction history as [|q history IH] using rev_ind.
  - unfold run. simpl. rewrite dom_empty_L. by intros ?%not_elem_of_empty.
  - unfold run. rewrite foldl_snoc. fold (run history).
    intros [Hk|(parent & type & name & Hk)]%serve_names; [by apply IH|].
    exists parent, type, name.
    pose proof Hk as [(_ & _ & ->)|(_ & p & _ & _ & ->)]%newUrn_shape;
      eexists; (split; [exact Hk|reflexivity]).
Qed.

(** X14.  Registrations under different names do not depend on their
    order: two of them that commit disjoint sets of names leave the same
    registry either way round. *)
Theorem registrations_commute (q1 q2 : request) (R : registry) :
  is_registration q1 = true -> is_registration q2 = true ->
  commits q1 ## commits q2 ->
  serve q1 (serve q2 R) = serve q2 (serve q1 R).
Proof.
  intros H1 H2 Hdisj.
  rewrite (serve_registration q1 (serve q2 R) H1), (serve_registration q2 R H2).
  rewrite (serve_registration q2 (serve q1 R) H2), (serve_registration q1 R H1).
  rewrite !(assoc_L (∪)). f_equal.
  apply map_union_comm. by apply map_disjoint_dom.
Qed.

End Histories.

(** ** Names *)

Section Names.

Context {Struct : Type} `{!Runtime Struct}.

Import JSString.

(** X15.  [newUrn] checks nothing about the parent but that it has a
    third "::"-component: it fails exactly for a non-empty parent with
    fewer than three components, and succeeds for every other parent,
    registered or not, whatever the type token and the logical name. *)
Theorem newUrn_fails_iff (parent type name : string) :
  (newUrn (Struct := Struct) parent type name = inl TypeError <->
   parent <> "" /\ length (split "::" parent) < 3) /\
  ((exists u, newUrn (Struct := Struct) parent type name = inr u) <->
   parent = "" \/ 3 <= length (split "::" parent)).
Proof.
  unfold newUrn. destruct (decide (parent = "")) as [->|Hp].
  - split.
    + split; [done|]. by intros [? _].
    + split; [by left|]. eauto.
  - destruct (split "::" parent !! 2%nat) as [q|] eqn:E.
    + assert (2 < length (split "::" parent)) by (apply lookup_lt_is_Some; eauto).
      split.
      * split; [done|]. intros [_ ?]. lia.
      * split; [right; lia|]. eauto.
    + apply lookup_ge_None in E. split.
      * split; [|done]. intros _. split; [done|lia].
      * split; [by intros [? ?]|]. intros [?|?]; [done|lia].
Qed.

(** X16.  Split on "::", a synthesized name gives back its four parts -
    the head with the stack, the project, the effective type and the
    logical name - when the stack is not empty, stack and project have
    no colon, and the effective type and the logical name have no "::"
    and no colon at their end. *)
Theorem synthesized_name_splits_back (parent type name u : string) :
  getStack <> "" ->
  free_of ":" getStack = true -> free_of ":" getProject = true ->
  segment name = true ->
  newUrn (Struct := Struct) parent type name = inr u ->
  (parent = "" -> segment type = true ->
   split "::" u = ["urn:pulumi:" +:+ getStack; getProject; type; name]) /\
  (forall p, inherited_type parent = Some p ->
     segment (p +:+ "$" +:+ type) = true ->
     split "::" u =
       ["urn:pulumi:" +:+ getStack; getProject; p +:+ "$" +:+ type; name]).
Proof.
  intros Hne Hstack Hproject Hname Hu.
  assert (Hsplit : forall eff, segment eff = true ->
            split "::" (urn_of eff name) =
              ["urn:pulumi:" +:+ getStack; getProject; eff; name]).
  { intros eff Heff. unfold urn_of.
    rewrite <- (app_assoc "urn:pulumi:" getStack).
    rewrite split_segment by by apply urn_head_segment.
    rewrite split_segment by by apply free_of_segment.
    rewrite split_segment by done.
    by rewrite split_one_segment. }
  apply newUrn_shape in Hu as [(Hp & Hi & ->)|(Hp & p & Hi & _ & ->)].
  - split; [intros _; apply Hsplit|]. intros p' Hp'. congruence.
  - split; [done|]. intros p' Hp'. assert (p' = p) as -> by congruence.
    apply Hsplit.
Qed.

(** X17.  The chain of types is carried one level at a time.  Under a
    root resource of type [A], a resource of type [B] is named with
    [A$B]; under that one, a resource of type [C] is named with [B$C],
    and [A] is gone. *)
Theorem three_generations (A B C a b c : string) :
  getStack <> "" ->
  free_of ":" getStack = true -> free_of ":" getProject = true ->
  segment A = true -> free_of "$" A = true ->
  segment (A +:+ "$" +:+ B) = true -> free_of "$" B = true ->
  newUrn (Struct := Struct) "" A a = inr (urn_of A a) /\
  newUrn (Struct := Struct) (urn_of A a) B b = inr (urn_of (A +:+ "$" +:+ B) b) /\
  newUrn (Struct := Struct) (urn_of (A +:+ "$" +:+ B) b) C c =
    inr (urn_of (B +:+ "$" +:+ C) c).
Proof.
  intros Hne Hstack Hproject HsegA HA HsegAB HB.
  split; [reflexivity|]. split.
  - rewrite (newUrn_parent _ _ _ A); [|done|by apply urn_of_qualified_type].
    by rewrite split_char_free.
  - rewrite (newUrn_parent _ _ _ (A +:+ "$" +:+ B));
      [|done|by apply urn_of_qualified_type].
    change (A +:+ "$" +:+ B) with (A +:+ String "$" B).
    by rewrite pop_split_char.
Qed.

End Names.

(** ** The further properties on the concrete environment *)

Section FurtherScenarios.

Import JSString Sample.

#[local] Abbreviation bucket_registry :=
  ({[ bucket_urn := bucket_entry ]} : gmap string (RegisteredResource wire)).

Lemma lookups_never_write_witness :
  registerResourceOutputs (outputs "urn:missing" JNull) bucket_registry =
    (bucket_registry, Failed (UnknownResource (JStr "urn:missing"))) /\
  bucket_registry !! "urn:missing" = None.
Proof.
  split; [reflexivity|].
  exact (proj2 (proj2 (proj2 (proj2 (lookups_never_write bucket_registry))
                         (outputs "urn:missing" JNull) bucket_registry
                         (UnknownResource (JStr "urn:missing")) eq_refl))).
Defined.

Lemma invoke_call_completes_iff_witness :
  "pkg:mod:echo" <> "pulumi:pulumi:getResource" /\
  invoke (echo (JObj [("x", JNum 1)])) bucket_registry =
    (bucket_registry, Done (InvokeResponse.Build_t (Packed (JObj [("x", JNum 1)])))).
Proof.
  assert (H : "pkg:mod:echo" <> "pulumi:pulumi:getResource") by discriminate.
  split; [exact H|].
  apply (proj2 (proj1 (invoke_call_completes_iff (echo (JObj [("x", JNum 1)]))
                         bucket_registry
                         (InvokeResponse.Build_t (Packed (JObj [("x", JNum 1)]))) H))).
  exists (JObj [("x", JNum 1)]), (JObj [("x", JNum 1)]), (JObj [("x", JNum 1)]).
  repeat split; reflexivity.
Defined.

Lemma reserved_token_bypasses_mocks_witness :
  invoke (Mocks0 := mocks) (get_resource bucket_urn) bucket_registry =
  invoke (Mocks0 := silent_mocks) (get_resource bucket_urn) bucket_registry.
Proof.
  exact (reserved_token_bypasses_mocks mocks silent_mocks (get_resource bucket_urn)
           bucket_registry eq_refl).
Defined.

Lemma getResource_bad_arguments_witness :
  invoke (get_resource_with JNull) bucket_registry =
    (bucket_registry, Failed TypeError) /\
  invoke (get_resource_with (JObj [("name", JStr bucket_urn)])) bucket_registry =
    (bucket_registry, Failed (UnknownResource JUndefined)).
Proof.
  split.
  - apply (proj1 (getResource_bad_arguments (Runtime0 := runtime) (Mocks0 := mocks)
                    (get_resource_with JNull) JNull
                    bucket_registry eq_refl eq_refl)).
    by right.
  - apply (proj2 (proj2 (getResource_bad_arguments
                           (Runtime0 := runtime) (Mocks0 := mocks)
                           (get_resource_with (JObj [("name", JStr bucket_urn)]))
                           (JObj [("name", JStr bucket_urn)])
                           bucket_registry eq_refl eq_refl))
             [("name", JStr bucket_urn)] eq_refl).
    intros v Hv. apply list_elem_of_singleton in Hv. discriminate Hv.
Defined.

Lemma registration_is_upsert_witness :
  (bucket_urn ∉ dom (registerResource (register_named "other" "") ∅).1) /\
  (registerResource (register_named "other" "") bucket_registry).1 !! bucket_urn
    = Some bucket_entry.
Proof.
  assert (H : bucket_urn ∉ dom (registerResource (register_named "other" "") ∅).1).
  { apply not_elem_of_dom. reflexivity. }
  split; [exact H|].
  exact (proj2 (proj2 (proj2 (registration_is_upsert bucket_registry)))
           (register_named "other" "") bucket_urn H).
Defined.

Lemma read_and_register_agree_witness :
  (readResource (read_bucket "") ∅).1 =
  (registerResource
     {| RegisterResourceRequest.getType := "pkg:mod:Bucket";
        RegisterResourceRequest.getName := "my-bucket";
        RegisterResourceRequest.getObject := Packed (JObj []);
        RegisterResourceRequest.getProvider := "";
        RegisterResourceRequest.getImportid := "bucket-1";
        RegisterResourceRequest.getCustom := true;
        RegisterResourceRequest.getParent := "" |} ∅).1.
Proof.
  exact (proj1 (read_and_register_agree (read_bucket "")
                  {| RegisterResourceRequest.getType := "pkg:mod:Bucket";
                     RegisterResourceRequest.getName := "my-bucket";
                     RegisterResourceRequest.getObject := Packed (JObj []);
                     RegisterResourceRequest.getProvider := "";
                     RegisterResourceRequest.getImportid := "bucket-1";
                     RegisterResourceRequest.getCustom := true;
                     RegisterResourceRequest.getParent := "" |}
                  ∅ eq_refl eq_refl eq_refl eq_refl eq_refl eq_refl eq_refl)).
Defined.

Lemma registerResource_completes_iff_witness :
  exists inputs result urn st object,
    deserializeProperties (RegisterResourceRequest.getObject register_bucket)
      = Returned inputs /\
    newResource "pkg:mod:Bucket" "my-bucket" inputs "" "" true = Returned result /\
    newUrn (Struct := wire) "" "pkg:mod:Bucket" "my-bucket" = inr urn /\
    serializeProperties "" (mock_state result) = Returned st /\
    Struct_fromJavaScript st = Returned object /\
    bucket_registry = <[urn := Build_RegisteredResource urn (mock_id result) st]> ∅ /\
    RegisterResourceResponse.Build_t bucket_urn (Some "bucket-1") (Packed bucket_state)
      = RegisterResourceResponse.Build_t urn (mock_id result) object.
Proof.
  exact (proj1 (registerResource_completes_iff register_bucket ∅ bucket_registry
                  (RegisterResourceResponse.Build_t bucket_urn (Some "bucket-1")
                     (Packed bucket_state))) eq_refl).
Defined.

Lemma commit_precedes_encoding_witness :
  registerResource (Runtime0 := rejecting_runtime) register_bucket ∅ =
    (bucket_registry, Failed (Thrown Encoder (JStr "Unexpected struct type."))) /\
  readResource (Runtime0 := rejecting_runtime) (read_bucket "") ∅ =
    (bucket_registry, Failed (Thrown Encoder (JStr "Unexpected struct type."))).
Proof.
  pose proof (commit_precedes_encoding (Runtime0 := rejecting_runtime) ∅)
    as [Hreg Hread].
  split.
  - exact (proj1 (Hreg register_bucket (JObj [("foo", JStr "bar")])
                    {| mock_id := Some "bucket-1"; mock_state := bucket_state |}
                    bucket_urn bucket_state (JStr "Unexpected struct type.")
                    eq_refl eq_refl eq_refl eq_refl eq_refl)).
  - exact (proj1 (Hread (read_bucket "") (JObj [])
                    {| mock_id := Some "bucket-1"; mock_state := bucket_state |}
                    bucket_urn bucket_state (JStr "Unexpected struct type.")
                    eq_refl eq_refl eq_refl eq_refl eq_refl)).
Defined.

Lemma register_outputs_lookup_witness :
  registerResource register_bucket ∅ =
    (bucket_registry,
     Done (RegisterResourceResponse.Build_t bucket_urn (Some "bucket-1")
             (Packed bucket_state))) /\
  invoke (get_resource bucket_urn)
    (registerResourceOutputs (outputs bucket_urn (JObj [("a", JStr "1")]))
       bucket_registry).1 =
    ((registerResourceOutputs (outputs bucket_urn (JObj [("a", JStr "1")]))
        bucket_registry).1,
     found (Build_RegisteredResource bucket_urn (Some "bucket-1")
              (JMsg (Packed (JObj [("a", JStr "1")]))))).
Proof.
  assert (E : registerResource register_bucket ∅ =
    (bucket_registry,
     Done (RegisterResourceResponse.Build_t bucket_urn (Some "bucket-1")
             (Packed bucket_state)))) by reflexivity.
  split; [exact E|].
  refine (proj2 (register_outputs_lookup register_bucket
                   (outputs bucket_urn (JObj [("a", JStr "1")]))
                   (get_resource bucket_urn) ∅ bucket_registry _ E eq_refl _)).
  split; [reflexivity|]. eexists. split; reflexivity.
Defined.

Lemma reregistration_discards_outputs_witness :
  registerResource register_bucket
    (registerResourceOutputs (outputs bucket_urn (JObj [("a", JStr "1")]))
       bucket_registry).1 =
  (bucket_registry,
   Done (RegisterResourceResponse.Build_t bucket_urn (Some "bucket-1")
           (Packed bucket_state))).
Proof.
  exact (reregistration_discards_outputs register_bucket
           (outputs bucket_urn (JObj [("a", JStr "1")])) ∅ bucket_registry
           (RegisterResourceResponse.Build_t bucket_urn (Some "bucket-1")
              (Packed bucket_state)) eq_refl eq_refl).
Defined.

Lemma only_registrations_add_names_witness :
  run [Invoke (get_resource bucket_urn);
       RegisterResourceOutputs (outputs bucket_urn JNull);
       SupportsFeature "secrets";
       Invoke (echo JNull)] = (∅ : gmap string (RegisteredResource wire)).
Proof.
  apply (only_registrations_add_names
           [Invoke (get_resource bucket_urn);
            RegisterResourceOutputs (outputs bucket_urn JNull);
            SupportsFeature "secrets";
            Invoke (echo JNull)]).
  intros q Hq.
  repeat (apply elem_of_cons in Hq as [->|Hq]; [reflexivity|]).
  by apply elem_of_nil in Hq.
Defined.

Lemma registered_names_are_synthesized_witness :
  bucket_urn ∈ dom (run [RegisterResource register_bucket]) /\
  exists parent type name effectiveType,
    newUrn (Struct := wire) parent type name = inr bucket_urn /\
    bucket_urn = "urn:pulumi:" +:+ "stack" +:+ "::" +:+ "project" +:+ "::" +:+
                 effectiveType +:+ "::" +:+ name.
Proof.
  assert (H : bucket_urn ∈ dom (run [RegisterResource register_bucket])).
  { apply elem_of_dom. exists bucket_entry. reflexivity. }
  split; [exact H|].
  exact (registered_names_are_synthesized [RegisterResource register_bucket]
           bucket_urn H).
Defined.

Lemma registrations_commute_witness :
  serve (RegisterResource (register_named "a" ""))
    (serve (RegisterResource (register_named "b" "")) bucket_registry) =
  serve (RegisterResource (register_named "b" ""))
    (serve (RegisterResource (register_named "a" "")) bucket_registry).
Proof.
  apply (registrations_commute (RegisterResource (register_named "a" ""))
           (RegisterResource (register_named "b" "")) bucket_registry
           eq_refl eq_refl).
  unfold commits.
  change ((serve (RegisterResource (register_named "a" "")) ∅))
    with ({[ "urn:pulumi:stack::project::pkg:mod:Bucket::a" :=
               Build_RegisteredResource "urn:pulumi:stack::project::pkg:mod:Bucket::a"
                 (Some "bucket-1") bucket_state ]}
          : gmap string (RegisteredResource wire)).
  change ((serve (RegisterResource (register_named "b" "")) ∅))
    with ({[ "urn:pulumi:stack::project::pkg:mod:Bucket::b" :=
               Build_RegisteredResource "urn:pulumi:stack::project::pkg:mod:Bucket::b"
                 (Some "bucket-1") bucket_state ]}
          : gmap string (RegisteredResource wire)).
  rewrite !dom_singleton_L. apply disjoint_singleton_l, not_elem_of_singleton.
  discriminate.
Defined.

Lemma synthesized_name_splits_back_witness :
  split "::" bucket_urn = ["urn:pulumi:stack"; "project"; "pkg:mod:Bucket"; "my-bucket"].
Proof.
  assert (H : getStack (Struct := wire) <> "") by discriminate.
  exact (proj1 (synthesized_name_splits_back (Struct := wire)
                  "" "pkg:mod:Bucket" "my-bucket" bucket_urn
                  H eq_refl eq_refl eq_refl eq_refl) eq_refl eq_refl).
Defined.

Lemma three_generations_witness :
  newUrn (Struct := wire) "urn:pulumi:stack::project::pkg:mod:A$pkg:mod:B::b"
    "pkg:mod:C" "c"
  = inr "urn:pulumi:stack::project::pkg:mod:B$pkg:mod:C::c".
Proof.
  assert (H : getStack (Struct := wire) <> "") by discriminate.
  exact (proj2 (proj2 (three_generations (Struct := wire)
                         "pkg:mod:A" "pkg:mod:B" "pkg:mod:C" "a" "b" "c"
                         H eq_refl eq_refl eq_refl eq_refl eq_refl eq_refl))).
Defined.

End FurtherScenarios.
